(** * Portfolio dashboard: indicator engine and watchlist aggregation

    A shallow embedding of the computational core of [dashboard.py]:
    the moving averages and the RSI of the single-stock tab, the profile
    and news panels, and the portfolio tab with its two watchlist loops,
    its table and its performance chart.

    Numbers.  The script computes on IEEE binary64 values held in pandas
    Series.  The embedding keeps the four kinds of value the script can
    observe (a finite number, the two infinities, NaN) and the IEEE rules
    for the special cases (division by zero, arithmetic on infinities, NaN
    propagation, comparisons with NaN), and computes exactly on finite
    values, over the rationals.  Rounding, overflow and the sign of zero are
    not represented. *)

From Stdlib Require Import QArith Qminmax Lqa ZArith Lia.
From stdpp Require Import gmap strings list fin_maps.

(** ** Numeric values *)

Module Float.

Inductive float :=
  | Fin (q : Q)
  | PInf
  | NInf
  | NaN.

Definition of_Z (z : Z) : float := Fin (inject_Z z).
Definition of_nat (n : nat) : float := of_Z (Z.of_nat n).

Definition isnan (x : float) : bool :=
  match x with NaN => true | _ => false end.

Definition notna (x : float) : bool := negb (isnan x).

Definition isfinite (x : float) : bool :=
  match x with Fin _ => true | _ => false end.

Definition fopp (x : float) : float :=
  match x with
  | Fin q => Fin (- q)
  | PInf => NInf
  | NInf => PInf
  | NaN => NaN
  end.

Definition fadd (x y : float) : float :=
  match x, y with
  | NaN, _ | _, NaN => NaN
  | Fin a, Fin b => Fin (a + b)
  | PInf, NInf | NInf, PInf => NaN
  | PInf, _ | _, PInf => PInf
  | NInf, _ | _, NInf => NInf
  end.

Definition fsub (x y : float) : float := fadd x (fopp y).

(** The infinity with the sign of [q], NaN for zero. *)
Definition signed_inf (q : Q) : float :=
  match (q ?= 0)%Q with
  | Gt => PInf
  | Lt => NInf
  | Eq => NaN
  end.

Definition fmul (x y : float) : float :=
  match x, y with
  | NaN, _ | _, NaN => NaN
  | Fin a, Fin b => Fin (a * b)
  | Fin a, PInf | PInf, Fin a => signed_inf a
  | Fin a, NInf | NInf, Fin a => signed_inf (- a)
  | PInf, PInf | NInf, NInf => PInf
  | PInf, NInf | NInf, PInf => NInf
  end.

Definition fdiv (x y : float) : float :=
  match x, y with
  | NaN, _ | _, NaN => NaN
  | Fin a, Fin b =>
      match (b ?= 0)%Q with
      | Eq => signed_inf a
      | _ => Fin (a / b)
      end
  | Fin _, (PInf | NInf) => Fin 0
  | PInf, Fin b => match (b ?= 0)%Q with Lt => NInf | _ => PInf end
  | NInf, Fin b => match (b ?= 0)%Q with Lt => PInf | _ => NInf end
  | (PInf | NInf), (PInf | NInf) => NaN
  end.

(** Comparisons are false whenever an operand is NaN. *)
Definition flt (x y : float) : bool :=
  match x, y with
  | NaN, _ | _, NaN => false
  | Fin a, Fin b => match (a ?= b)%Q with Lt => true | _ => false end
  | NInf, (Fin _ | PInf) => true
  | Fin _, PInf => true
  | _, _ => false
  end.

Definition fgt (x y : float) : bool := flt y x.

End Float.

Export Float.

Declare Scope float_scope.
Delimit Scope float_scope with F.
Bind Scope float_scope with float.
Infix "+" := fadd : float_scope.
Infix "-" := fsub : float_scope.
Infix "*" := fmul : float_scope.
Infix "/" := fdiv : float_scope.
Notation "- x" := (fopp x) : float_scope.

(** ** Exceptions *)

Inductive exn :=
  | KeyError (key : string)
  | IndexError
  | ValueError
  | FetchError.

Inductive result (A : Type) :=
  | Ok (a : A)
  | Raise (e : exn).
Arguments Ok {A} a.
Arguments Raise {A} e.

#[global] Instance result_ret : MRet result := λ A a, Ok a.
#[global] Instance result_bind : MBind result := λ A B k m,
  match m with
  | Ok a => k a
  | Raise e => Raise e
  end.

(** ** The pandas operations the script uses *)

Module Pandas.

(** Column values, oldest first. *)
Abbreviation values := (list float).

Section ops.
Open Scope float_scope.

(** [s.shift(1)]: every value moves one place later, NaN enters. *)
Definition shift1 (xs : values) : values :=
  take (length xs) (NaN :: xs).

(** [s.diff()] is [s - s.shift(1)]. *)
Definition diff (xs : values) : values :=
  zip_with fsub xs (shift1 xs).

(** [s > c] and [s < c], element by element. *)
Definition gt_scalar (xs : values) (c : float) : list bool :=
  (λ x, fgt x c) <$> xs.
Definition lt_scalar (xs : values) (c : float) : list bool :=
  (λ x, flt x c) <$> xs.

(** [s.where(cond, other)]: keep the value where [cond] holds, put
    [other] everywhere else. *)
Definition where_ (xs : values) (cond : list bool) (other : float) : values :=
  zip_with (λ x (c : bool), if c then x else other) xs cond.

Definition neg (xs : values) : values := fopp <$> xs.

Definition fsum (xs : values) : float := foldr fadd (Fin 0) xs.

(** The observations of a window are its finite values: pandas turns
    an infinite value into NaN before it rolls, and NaN is no observation.
    The mean is defined once there are at least [minp] observations.
    pandas keeps a running sum from one window to the next; the mean is
    given here by the sum of the window itself, which is the same number. *)
Definition window_mean (minp : nat) (win : values) : float :=
  let obs := filter (λ x, isfinite x = true) win in
  if (minp <=? length obs)%nat
  then fsum obs / of_nat (length obs)
  else NaN.

(** The window of size [w] that ends at index [i]. *)
Definition window_at (w i : nat) (xs : values) : values :=
  take (S i - (S i - w)) (drop (S i - w) xs).

(** [s.rolling(window=w).mean()]; [min_periods] defaults to [w]. *)
Definition rolling_mean (w : nat) (xs : values) : values :=
  (λ i, window_mean w (window_at w i xs)) <$> seq 0 (length xs).

(** Arithmetic between two Series and between a scalar and a Series. *)
Definition div (xs ys : values) : values := zip_with fdiv xs ys.
Definition scalar_add (c : float) (xs : values) : values := fadd c <$> xs.
Definition scalar_div (c : float) (xs : values) : values := fdiv c <$> xs.
Definition scalar_sub (c : float) (xs : values) : values := fsub c <$> xs.
End ops.

(** Positional access with Python's negative indices. *)
Definition iloc {A} (l : list A) (k : Z) : result A :=
  let n := Z.of_nat (length l) in
  let k' := if (k <? 0)%Z then (k + n)%Z else k in
  if ((0 <=? k') && (k' <? n))%Z
  then match l !! Z.to_nat k' with
       | Some a => Ok a
       | None => Raise IndexError
       end
  else Raise IndexError.

End Pandas.

Export Pandas.

(** ** The dashboard script *)

Module Dashboard.

Section dashboard.
(** The row labels of a price history and their [strftime('%Y-%m-%d')]
    rendering belong to pandas; the script only passes them along.  The
    rendering raises for a label that is no date (NaT). *)
Context {Timestamp : Type}.
Variable strftime : Timestamp → result string.

(** A Series pairs every value with its row label. *)
Definition Series : Type := list (Timestamp * float).

Record DataFrame := {
  index : list Timestamp;
  columns : gmap string values;
}.

(** [df.empty]: one of the two axes has length zero. *)
Definition df_empty (df : DataFrame) : bool :=
  (length (index df) =? 0)%nat || (size (columns df) =? 0)%nat.

(** [df[c]] *)
Definition getitem (df : DataFrame) (c : string) : result Series :=
  match columns df !! c with
  | Some vs => Ok (zip (index df) vs)
  | None => Raise (KeyError c)
  end.

(** [df[c] = vs], for values aligned with the frame's own index. *)
Definition setitem (df : DataFrame) (c : string) (vs : values) : DataFrame :=
  {| index := index df; columns := <[c := vs]> (columns df) |}.

(** [s.empty] and [len(s)] *)
Definition s_empty (s : Series) : bool := (length s =? 0)%nat.

(** ** Configuration (lines 14-42) *)

Definition tickers : list (string * string) :=
  [ ("Applied Digital", "APLD");
    ("Symbotic", "SYM");
    ("Tesla", "TSLA");
    ("Google", "GOOGL");
    ("Nebius Group N.V", "NBIS") ]%string.

Definition range_map : gmap string string :=
  list_to_map
    [ ("1 Month", "1mo"); ("3 Months", "3mo"); ("6 Months", "6mo");
      ("1 Year", "1y"); ("2 Years", "2y"); ("5 Years", "5y") ]%string.

(** [get_stock_data(ticker, period)]: the provider's answer, a frame or
    an exception.  Within one run the cache makes it a function of its
    arguments. *)
Variable get_stock_data : string → string → result DataFrame.

(** ** The indicator engine (lines 71-79) *)

Definition SMA (w : nat) (close : values) : values := rolling_mean w close.

Definition delta (close : values) : values := diff close.

(** The two Series that are averaged: [delta.where(delta > 0, 0)] and
    [-delta.where(delta < 0, 0)]. *)
Definition gain_terms (close : values) : values :=
  where_ (delta close) (gt_scalar (delta close) (of_Z 0)) (of_Z 0).
Definition loss_terms (close : values) : values :=
  neg (where_ (delta close) (lt_scalar (delta close) (of_Z 0)) (of_Z 0)).

Definition gain (close : values) : values := rolling_mean 14 (gain_terms close).
Definition loss (close : values) : values := rolling_mean 14 (loss_terms close).
Definition rs (close : values) : values := div (gain close) (loss close).
Definition RSI (close : values) : values :=
  scalar_sub (of_Z 100) (scalar_div (of_Z 100) (scalar_add (of_Z 1) (rs close))).

(** The three assignments to [hist_data]; every [hist_data['Close']]
    is a lookup in the frame as it stands at that line. *)
Definition indicators (hist_data : DataFrame) : result DataFrame :=
  close ← getitem hist_data "Close";
  let hist_data := setitem hist_data "SMA_20" (SMA 20 close.*2) in
  close ← getitem hist_data "Close";
  let hist_data := setitem hist_data "SMA_50" (SMA 50 close.*2) in
  close ← getitem hist_data "Close";
  Ok (setitem hist_data "RSI" (RSI close.*2)).

(** ** The price chart of the first tab (lines 66-132) *)

Record Trace := {
  trace_name : string;
  trace_x : list Timestamp;
  trace_y : values;
}.

Inductive Rendered :=
  | PlotlyChart (fig : list Trace)
  | WarningNotice (msg : string)
  | ErrorNotice (msg : string).

Definition scatter (hist_data : DataFrame) (c name : string) : result Trace :=
  y ← getitem hist_data c;
  Ok {| trace_name := name; trace_x := index hist_data; trace_y := y.*2 |}.

Definition price_chart (selected_ticker date_range : string) : Rendered :=
  let attempt : result Rendered :=
    period ← (match range_map !! date_range with
              | Some p => Ok p
              | None => Raise (KeyError date_range)
              end);
    hist_data ← get_stock_data selected_ticker period;
    if negb (df_empty hist_data) then
      hist_data ← indicators hist_data;
      t1 ← scatter hist_data "Close" "Close Price";
      t2 ← scatter hist_data "SMA_20" "20-Day SMA";
      t3 ← scatter hist_data "SMA_50" "50-Day SMA";
      t4 ← scatter hist_data "RSI" "RSI";
      Ok (PlotlyChart [t1; t2; t3; t4])
    else
      Ok (WarningNotice ("No historical data available for " +:+ selected_ticker
            +:+ ". The stock may be delisted or suspended."))
  in
  match attempt with
  | Ok r => r
  | Raise _ => ErrorNotice "Failed to fetch historical data. Please try again later."
  end.

(** ** The portfolio table (lines 190-221) *)

(** [get_stock_data(ticker, period)['Close']] (lines 193 and 247): the
    fetch may raise, and so may the column lookup.  Each loop evaluates it
    once per ticker. *)
Definition close_series (ticker period : string) : result Series :=
  frame ← get_stock_data ticker period;
  getitem frame "Close".

(** A table cell holds a number or a string. *)
Inductive Cell :=
  | Num (x : float)
  | Str (s : string).

Record TickerSnapshot := {
  Name : string;
  Ticker : string;
  Price : Cell;
  Change : Cell;
  Last_Updated : Cell;
}.

Definition unavailable (name ticker : string) : TickerSnapshot :=
  {| Name := name; Ticker := ticker;
     Price := Str "N/A"; Change := Str "N/A"; Last_Updated := Str "N/A" |}.

(** The [try] block of one iteration, on the list built so far. *)
Definition snapshot_try (portfolio_data : list TickerSnapshot)
    (name ticker : string) : result (list TickerSnapshot) :=
  data ← close_series ticker "1d";
  if negb (s_empty data) then
    current_price ← iloc data.*2 (-1);
    prev_close ← (if (1 <? length data)%nat then iloc data.*2 (-2)
                  else Ok current_price);
    let change := (((current_price - prev_close) / prev_close) * of_Z 100)%F in
    stamp ← iloc data.*1 (-1);
    last_updated ← strftime stamp;
    Ok (portfolio_data ++
          [ {| Name := name; Ticker := ticker;
               Price := Num current_price; Change := Num change;
               Last_Updated := Str last_updated |} ])
  else
    Ok (portfolio_data ++ [unavailable name ticker]).

(** One iteration: the bare [except] appends the placeholder row. *)
Definition snapshot_step (portfolio_data : list TickerSnapshot)
    (item : string * string) : list TickerSnapshot :=
  let '(name, ticker) := item in
  match snapshot_try portfolio_data name ticker with
  | Ok rows => rows
  | Raise _ => portfolio_data ++ [unavailable name ticker]
  end.

Definition portfolio_data (watchlist : list (string * string)) : list TickerSnapshot :=
  foldl snapshot_step [] watchlist.

(** Lines 195-197 on their own: the change of a sequence of closes, the
    latest against the one before it, or against itself when there is only
    one. *)
Definition day_change (data : values) : result float :=
  current_price ← iloc data (-1);
  prev_close ← (if (1 <? length data)%nat then iloc data (-2)
                else Ok current_price);
  Ok (((current_price - prev_close) / prev_close) * of_Z 100)%F.

(** ** The performance list (lines 244-255) *)

Record PerformanceEntry := {
  perf_ticker : string;
  performance : float;
}.

(** Line 249 *)
Definition period_performance (data : values) : result float :=
  last ← iloc data (-1);
  first ← iloc data 0;
  Ok (((last - first) / first) * of_Z 100)%F.

Definition perf_try (perf_data : list PerformanceEntry)
    (ticker : string) : result (list PerformanceEntry) :=
  data ← close_series ticker "1mo";
  if negb (s_empty data) && (1 <? length data)%nat then
    perf ← period_performance data.*2;
    Ok (perf_data ++ [ {| perf_ticker := ticker; performance := perf |} ])
  else
    Ok perf_data.

(** One iteration: the bare [except] is [pass]. *)
Definition perf_step (perf_data : list PerformanceEntry)
    (item : string * string) : list PerformanceEntry :=
  let '(_, ticker) := item in
  match perf_try perf_data ticker with
  | Ok rows => rows
  | Raise _ => perf_data
  end.

Definition perf_data (watchlist : list (string * string)) : list PerformanceEntry :=
  foldl perf_step [] watchlist.

(** The tickers whose one-month close series has at least two points. *)
Definition has_two_points (ticker : string) : bool :=
  match close_series ticker "1mo" with
  | Ok data => (1 <? length data)%nat
  | Raise _ => false
  end.

End dashboard.

End Dashboard.

Export Dashboard.

(** ** A sample provider

    Row labels are dates already in text form, or the text NaT for a
    label that is no date.  Seven tickers: two closes, a failing fetch,
    three closes, a single close of zero, a single missing close, a close
    of zero followed by a close of five, a single close of zero under a
    label that is no date; every other ticker gets a frame without rows. *)

Definition sample_dates : list string :=
  ["2024-01-02"; "2024-01-03"; "2024-01-04"]%string.

Definition sample_frame (close : values) : @DataFrame string :=
  {| index := take (length close) sample_dates;
     columns := {[ "Close"%string := close ]} |}.

Definition sample_provider (ticker period : string) : result (@DataFrame string) :=
  if String.eqb ticker "AAA" then Ok (sample_frame [Fin 100; Fin 110])
  else if String.eqb ticker "BBB" then Raise FetchError
  else if String.eqb ticker "CCC" then Ok (sample_frame [Fin 50; Fin 55; Fin 60])
  else if String.eqb ticker "ZERO" then Ok (sample_frame [Fin 0])
  else if String.eqb ticker "NULL" then Ok (sample_frame [NaN])
  else if String.eqb ticker "FROMZERO" then Ok (sample_frame [Fin 0; Fin 5])
  else if String.eqb ticker "NAT"
       then Ok {| index := ["NaT"]; columns := {[ "Close" := [Fin 0] ]} |}
  else Ok (sample_frame []).

Definition sample_strftime (stamp : string) : result string :=
  if String.eqb stamp "NaT" then Raise ValueError else Ok stamp.

Definition sample_watchlist : list (string * string) :=
  [("First", "AAA"); ("Second", "BBB"); ("Third", "CCC")]%string.

(** ** Reference notions, in the words of the specification *)

(** The arithmetic mean of a list of numbers. *)
Definition Qsum (l : list Q) : Q := foldr Qplus 0%Q l.
Definition Qmean (l : list Q) : Q :=
  (Qsum l / inject_Z (Z.of_nat (length l)))%Q.

(** The [w] values that end at index [i]. *)
Definition slice_ending_at (w i : nat) (close : list Q) : list Q :=
  take w (drop (S i - w) close).

(** Day-over-day differences of finite closes, from index 1 on, and the
    two terms each difference contributes. *)
Definition deltaQ (close : list Q) : list Q := zip_with Qminus (tail close) close.
Definition upQ (d : Q) : Q := match (0 ?= d)%Q with Lt => d | _ => 0%Q end.
Definition downQ (d : Q) : Q := (- match (d ?= 0)%Q with Lt => d | _ => 0 end)%Q.
Definition gain_termsQ (close : list Q) : list Q :=
  match close with [] => [] | _ :: _ => 0%Q :: (upQ <$> deltaQ close) end.
Definition loss_termsQ (close : list Q) : list Q :=
  match close with [] => [] | _ :: _ => 0%Q :: (downQ <$> deltaQ close) end.

(** Line 79 at one index. *)
Definition rsi_of (g l : float) : float :=
  (of_Z 100 - of_Z 100 / (of_Z 1 + g / l))%F.

(** The RSI as the specification words it (section 4.1, steps 1 to 5):
    gain and loss are [max(delta, 0)] and [max(-delta, 0)] and exist only
    where delta does; both are averaged over 14 values under the rule of
    the moving average. *)
Definition spec_max0 (d : float) : float :=
  if isnan d then NaN else if fgt d (of_Z 0) then d else of_Z 0.
Definition spec_gain_terms (close : values) : values :=
  spec_max0 <$> delta close.
Definition spec_loss_terms (close : values) : values :=
  (λ d, spec_max0 (fopp d)) <$> delta close.
Definition spec_RSI (close : values) : values :=
  let avg_gain := rolling_mean 14 (spec_gain_terms close) in
  let avg_loss := rolling_mean 14 (spec_loss_terms close) in
  zip_with rsi_of avg_gain avg_loss.

(** Fifteen rising closes. *)
Definition closes15 : list Q :=
  [1; 2; 3; 4; 5; 6; 7; 8; 9; 10; 11; 12; 13; 14; 15]%Q.

(** A non-negative number or plus infinity. *)
Definition nonneg (x : float) : Prop :=
  match x with
  | Fin q => (0 <= q)%Q
  | PInf => True
  | NInf | NaN => False
  end.

(** A value of a derived series is defined when it is not NaN. *)
Definition defined (x : float) : Prop := notna x = true.

#[global] Instance defined_dec x : Decision (defined x).
Proof. unfold defined. apply _. Defined.

(** ** The text panels, the table colours and the bar chart

    What the page shows is kept as a list of elements, in the order the
    script emits them.  A formatted text is kept as the literal parts of the
    f-string and its replacement fields; turning a field into characters is
    Python's [format], of which only the failures are represented. *)

Module Panels.

(** Values of the provider's dictionaries. *)
Inductive pyval :=
  | PyNone
  | PyStr (s : string)
  | PyInt (z : Z)
  | PyFloat (x : float).

Inductive exc :=
  | KeyErr (key : string)
  | TypeErr
  | ValueErr
  | ProviderErr (msg : string).

Inductive outcome (A : Type) :=
  | Done (a : A)
  | Thrown (e : exc).
Arguments Done {A} a.
Arguments Thrown {A} e.

Inductive Fragment :=
  | Lit (s : string)
  | Field (v : pyval) (spec : string)
  | Shown (e : exc)
  | Rounded2 (x : float).

Record Bar := {
  bar_x : list string;
  bar_y : list float;
  marker_color : list string;
  bar_text : list (list Fragment);
  bar_title : string;
}.

(** A row of the table as it is displayed. *)
Record DisplayRow := {
  shown_name : string;
  shown_ticker : string;
  shown_price : list Fragment;
  shown_change : list Fragment;
  change_css : string;
  shown_updated : Cell;
}.

#[warnings="-register-all"]
Inductive Element :=
  | Subheader (s : string)
  | Write (t : list Fragment)
  | Markdown (s : string)
  | InfoBox (t : list Fragment)
  | WarningBox (t : list Fragment)
  | ErrorBox (t : list Fragment)
  | Expander (label : string) (body : list Element)
  | Dataframe (rows : list DisplayRow) (height : nat)
  | BarChart (fig : Bar).

#[global] Instance outcome_ret : MRet outcome := λ A a, Done a.
#[global] Instance outcome_bind : MBind outcome := λ A B k m,
  match m with
  | Done a => k a
  | Thrown e => Thrown e
  end.

(** A run of script statements: what it has shown, and how it ended. *)
Record Panel (A : Type) := mkPanel {
  written : list Element;
  ended : outcome A;
}.
Arguments mkPanel {A} written ended.
Arguments written {A} p.
Arguments ended {A} p.

#[global] Instance panel_ret : MRet Panel := λ A a, mkPanel [] (Done a).
#[global] Instance panel_bind : MBind Panel := λ A B k m,
  match ended m with
  | Done a => mkPanel (written m ++ written (k a)) (ended (k a))
  | Thrown e => mkPanel (written m) (Thrown e)
  end.

Definition show (el : Element) : Panel unit := mkPanel [el] (Done tt).

Definition lift {A} (o : outcome A) : Panel A := mkPanel [] o.

(** [try: body except Exception as e: handler] *)
Definition try_except (body : Panel unit) (handler : exc → Panel unit) : Panel unit :=
  match ended body with
  | Done _ => body
  | Thrown e => mkPanel (written body ++ written (handler e)) (ended (handler e))
  end.

(** [for x in l: f x] *)
Definition for_each {A} (f : A → Panel unit) (l : list A) : Panel unit :=
  foldr (λ x rest, f x ;; rest) (mret tt) l.

(** [with st.expander(label): body].  The label has to be a string: for
    [None] or any other value the call raises, before the body runs. *)
Definition expander (label : pyval) (body : Panel unit) : Panel unit :=
  match label with
  | PyStr s => mkPanel [Expander s (written body)] (ended body)
  | _ => lift (Thrown TypeErr)
  end.

(** [format(v, spec)]: the empty spec is [str(v)]; a numeric spec is
    refused by [None] with a TypeError and by a string with a ValueError. *)
Definition py_format (v : pyval) (spec : string) : outcome Fragment :=
  if String.eqb spec "" then Done (Field v spec)
  else match v with
       | PyInt _ | PyFloat _ => Done (Field v spec)
       | PyNone => Thrown TypeErr
       | PyStr _ => Thrown ValueErr
       end.

(** [d.get(k, default)] and [d[k]] *)
Definition dict_get (d : gmap string pyval) (k : string) (dflt : pyval) : pyval :=
  default dflt (d !! k).
Definition dict_item (d : gmap string pyval) (k : string) : outcome pyval :=
  match d !! k with
  | Some v => Done v
  | None => Thrown (KeyErr k)
  end.

Section panels.
Variable get_company_info : string → outcome (gmap string pyval).
Variable get_company_news : string → outcome (list (gmap string pyval)).
(** [pd.to_datetime(v, unit='s').strftime('%Y-%m-%d %H:%M')] *)
Variable publish_time : pyval → outcome string.

(** *** Company profile (lines 137-168) *)

(** Line 161, under the test of line 160. *)
Definition metric_line (item : string * pyval) : Panel unit :=
  let '(metric, value) := item in
  match value with
  | PyNone => mret tt
  | PyFloat _ =>
      f ← lift (py_format value ".2f");
      show (Write [Lit ("**" +:+ metric +:+ ":** "); f])
  | _ =>
      f ← lift (py_format value "");
      show (Write [Lit ("**" +:+ metric +:+ ":** "); f])
  end.

Definition metrics (info : gmap string pyval) : list (string * pyval) :=
  [ ("P/E Ratio", dict_get info "trailingPE" PyNone);
    ("P/B Ratio", dict_get info "priceToBook" PyNone);
    ("Dividend Yield", dict_get info "dividendYield" PyNone);
    ("52 Week High", dict_get info "fiftyTwoWeekHigh" PyNone);
    ("52 Week Low", dict_get info "fiftyTwoWeekLow" PyNone) ]%string.

Definition company_profile (selected_ticker : string) : Panel unit :=
  show (Subheader "Company Profile");;
  try_except
    (info ← lift (get_company_info selected_ticker);
     sector ← lift (py_format (dict_get info "sector" (PyStr "N/A")) "");
     show (Write [Lit "**Sector:** "; sector]);;
     industry ← lift (py_format (dict_get info "industry" (PyStr "N/A")) "");
     show (Write [Lit "**Industry:** "; industry]);;
     website ← lift (py_format (dict_get info "website" (PyStr "N/A")) "");
     show (Write [Lit "**Website:** "; website]);;
     cap ← lift (py_format (dict_get info "marketCap" (PyInt 0)) ",");
     show (Write [Lit "**Market Cap:** $"; cap]);;
     show (Markdown "---");;
     show (Subheader "Key Metrics");;
     for_each metric_line (metrics info);;
     show (Markdown "---");;
     show (Write [Lit "**Business Summary:**"]);;
     show (InfoBox [Field (dict_get info "longBusinessSummary"
                             (PyStr "No summary available.")) ""]))
    (λ e, show (ErrorBox [Lit "Could not retrieve company information. Error: ";
                          Shown e])).

(** *** Recent news (lines 170-184) *)

Definition news_item (item : gmap string pyval) : Panel unit :=
  title ← lift (dict_item item "title");
  expander title
    (publisher ← lift (dict_item item "publisher");
     f ← lift (py_format publisher "");
     show (Write [Lit "**Publisher:** "; f]);;
     (match item !! "providerPublishTime" with
      | Some t =>
          published ← lift (publish_time t);
          show (Write [Lit "**Published:** "; Lit published])
      | None => mret tt
      end);;
     link ← lift (dict_item item "link");
     f ← lift (py_format link "");
     show (Write [Lit "[Read more]("; f; Lit ")"])).

Definition recent_news (selected_ticker : string) : Panel unit :=
  show (Subheader "Recent News");;
  try_except
    (news ← lift (get_company_news selected_ticker);
     match news with
     | _ :: _ => for_each news_item (take 5 news)
     | [] => show (InfoBox [Lit "No recent news found for this company."])
     end)
    (λ _, show (WarningBox [Lit "News feed temporarily unavailable."])).

End panels.

(** *** Table colours (lines 226-230) *)

Definition color_change (val : Cell) : string :=
  match val with
  | Num x => if flt x (of_Z 0) then "color: red" else "color: green"
  | Str _ => ""
  end.

(** [x >= y], false whenever an operand is NaN. *)
Definition fge (x y : float) : bool :=
  match x, y with
  | NaN, _ | _, NaN => false
  | _, _ => negb (flt x y)
  end.

(** *** The portfolio tab (lines 186-281) *)

Definition cell_value (c : Cell) : pyval :=
  match c with
  | Num x => PyFloat x
  | Str s => PyStr s
  end.

(** One row under the Styler of lines 232-235: ['{:.2f}'.format] on the
    price, ['{:.2f}%'.format] on the change, [color_change] on the change.
    The formats are applied when the table is drawn; a string cell makes
    them raise a ValueError. *)
Definition styled_row (s : TickerSnapshot) : outcome DisplayRow :=
  price ← py_format (cell_value (Price s)) ".2f";
  change ← py_format (cell_value (Change s)) ".2f";
  Done {| shown_name := Name s;
          shown_ticker := Ticker s;
          shown_price := [price];
          shown_change := [change; Lit "%"];
          change_css := color_change (Change s);
          shown_updated := Last_Updated s |}.

Definition styled_rows (df : list TickerSnapshot) : outcome (list DisplayRow) :=
  foldr (λ s rest, row ← styled_row s; rows ← rest; Done (row :: rows))
        (Done []) df.

(** [st.dataframe(styled_df, height=(len(df) + 1) * 35 + 3)] (line 237).
    A frame built from an empty list has no [Change (%)] column for
    [applymap] to select. *)
Definition dataframe (df : list TickerSnapshot) : Panel unit :=
  match df with
  | [] => lift (Thrown (KeyErr "Change (%)"))
  | _ :: _ =>
      rows ← lift (styled_rows df);
      show (Dataframe rows ((length df + 1) * 35 + 3))
  end.

(** The colour of one bar (line 265). *)
Definition bar_color (x : float) : string :=
  if fge x (of_Z 0) then "green" else "red".

(** The bar chart of lines 259-275. *)
Definition perf_figure (perf_data : list PerformanceEntry) : Bar :=
  {| bar_x := perf_ticker <$> perf_data;
     bar_y := performance <$> perf_data;
     marker_color := (λ p, bar_color (performance p)) <$> perf_data;
     bar_text := (λ p, [Rounded2 (performance p); Lit "%"]) <$> perf_data;
     bar_title := "1-Month Performance" |}.

Section portfolio_tab.
Context {Timestamp : Type}.
Variable strftime : Timestamp → result string.
Variable get_stock_data : string → string → result (@DataFrame Timestamp).
(** [st.plotly_chart(fig)], which draws the figure or raises. *)
Variable plotly_chart : Bar → outcome unit.

Definition performance_chart (watchlist : list (string * string)) : Panel unit :=
  show (Subheader "Portfolio Performance");;
  try_except
    (let perf_data := perf_data get_stock_data watchlist in
     match perf_data with
     | _ :: _ =>
         let fig := perf_figure perf_data in
         lift (plotly_chart fig);;
         show (BarChart fig)
     | [] => show (InfoBox [Lit "Could not load performance data for all stocks."])
     end)
    (λ e, show (WarningBox [Lit "Failed to generate performance chart: "; Shown e])).

(** The table is drawn outside any [try]: an exception there ends the
    run of the page before the performance section. *)
Definition portfolio_tab (watchlist : list (string * string)) : Panel unit :=
  show (Subheader "Portfolio Overview");;
  dataframe (portfolio_data strftime get_stock_data watchlist);;
  performance_chart watchlist.

End portfolio_tab.

(** *** Sidebar (lines 23-32) *)

(** [tickers[selected_stock_name]] *)
Definition selected_ticker (selected_stock_name : string) : outcome string :=
  match (list_to_map tickers : gmap string string) !! selected_stock_name with
  | Some t => Done t
  | None => Thrown (KeyErr selected_stock_name)
  end.

Definition date_range_options : list string :=
  ["1 Month"; "3 Months"; "6 Months"; "1 Year"; "2 Years"; "5 Years"]%string.

End Panels.

Export Panels.

(** ** Further notions *)

(** A close that may be missing, as the value the Series holds. *)
Definition close_value (c : option Q) : float := from_option Fin NaN c.

(** Every column of a frame has one value per row. *)
Definition well_formed {Timestamp} (df : @DataFrame Timestamp) : Prop :=
  ∀ c vs, columns df !! c = Some vs → length vs = length (index df).

(** Fifteen closes, the sixth of them missing. *)
Definition closes_with_gap : list (option Q) :=
  (Some <$> [1; 2; 3; 4; 5]%Q) ++ None :: (Some <$> [7; 8; 9; 10; 11; 12; 13; 14; 15]%Q).

(** The line a metric gets, if it gets one. *)
Definition metric_row (item : string * pyval) : option Element :=
  let '(metric, value) := item in
  match value with
  | PyNone => None
  | PyFloat _ => Some (Write [Lit ("**" +:+ metric +:+ ":** "); Field value ".2f"])
  | _ => Some (Write [Lit ("**" +:+ metric +:+ ":** "); Field value ""])
  end.

(** The expander of a news item that has a title which is a string, a
    publisher and a link, and whose publish time, if it has one, converts. *)
Definition complete_item (publish_time : pyval → outcome string)
    (item : gmap string pyval) : option Element :=
  title ← item !! "title";
  publisher ← item !! "publisher";
  link ← item !! "link";
  match title, item !! "providerPublishTime" with
  | PyStr title, None =>
      Some (Expander title
              [ Write [Lit "**Publisher:** "; Field publisher ""];
                Write [Lit "[Read more]("; Field link ""; Lit ")"] ])
  | PyStr title, Some t =>
      match publish_time t with
      | Done published =>
          Some (Expander title
                  [ Write [Lit "**Publisher:** "; Field publisher ""];
                    Write [Lit "**Published:** "; Lit published];
                    Write [Lit "[Read more]("; Field link ""; Lit ")"] ])
      | Thrown _ => None
      end
  | _, _ => None
  end.

(** What is shown of a news item that is not complete: nothing when the
    title is missing or is no string, else its expander with the lines
    written before the failure. *)
Definition interrupted_item (publish_time : pyval → outcome string)
    (item : gmap string pyval) : list Element :=
  match item !! "title" with
  | Some (PyStr title) =>
      match item !! "publisher" with
      | None => [Expander title []]
      | Some publisher =>
          let line := Write [Lit "**Publisher:** "; Field publisher ""] in
          match item !! "providerPublishTime" with
          | None => [Expander title [line]]
          | Some t =>
              match publish_time t with
              | Done published =>
                  [Expander title
                     [line; Write [Lit "**Published:** "; Lit published]]]
              | Thrown _ => [Expander title [line]]
              end
          end
      end
  | _ => []
  end.

Definition is_expander (el : Element) : bool :=
  match el with Expander _ _ => true | _ => false end.

(** A provider of news and a time conversion to try the panels on. *)
Definition sample_story (title : string) : gmap string pyval :=
  {[ "title" := PyStr title; "publisher" := PyStr "Wire";
     "link" := PyStr "https://example.org" ]}.

Definition sample_news (ticker : string) : outcome (list (gmap string pyval)) :=
  if String.eqb ticker "AAA" then Done (sample_story <$> ["a"; "b"; "c"; "d"; "e"; "f"; "g"]%string)
  else if String.eqb ticker "BBB" then Thrown (ProviderErr "timeout")
  else if String.eqb ticker "CCC"
       then Done [sample_story "a"; {[ "publisher" := PyStr "Wire" ]}; sample_story "c"]
  else if String.eqb ticker "DDD"
       then Done [ sample_story "a";
                   {[ "title" := PyStr "b"; "publisher" := PyStr "Wire" ]};
                   sample_story "c" ]
  else if String.eqb ticker "EEE"
       then Done [ <[ "title" := PyNone ]> (sample_story "a"); sample_story "c" ]
  else Done [].

Definition sample_info (ticker : string) : outcome (gmap string pyval) :=
  if String.eqb ticker "AAA"
  then Done {[ "sector" := PyStr "Technology"; "marketCap" := PyInt 1000;
               "trailingPE" := PyFloat (Fin 12) ]}
  else if String.eqb ticker "BBB" then Thrown (ProviderErr "timeout")
  else if String.eqb ticker "CCC" then Done {[ "marketCap" := PyNone ]}
  else Done ∅.

Definition sample_publish_time (t : pyval) : outcome string :=
  match t with
  | PyInt _ | PyFloat _ => Done "2024-01-02 09:30"
  | _ => Thrown ValueErr
  end.

Definition sample_plotly_chart (fig : Bar) : outcome unit := Done tt.

Definition sample_plotly_chart_raising (fig : Bar) : outcome unit :=
  Thrown (ProviderErr "figure refused").

(** A row whose price and change are numbers, and the way the table
    displays it. *)
Definition populated (s : TickerSnapshot) : Prop :=
  ∃ price change, Price s = Num price ∧ Change s = Num change.

Definition displayed (s : TickerSnapshot) (row : DisplayRow) : Prop :=
  ∃ price change,
    Price s = Num price ∧ Change s = Num change ∧
    row = {| shown_name := Name s;
             shown_ticker := Ticker s;
             shown_price := [Field (PyFloat price) ".2f"];
             shown_change := [Field (PyFloat change) ".2f"; Lit "%"];
             change_css := color_change (Num change);
             shown_updated := Last_Updated s |}.

(** * Properties *)

(** ** Arithmetic on finite values *)

Lemma fdiv_of_nat s n :
  0 < n → (Fin s / of_nat n)%F = Fin (s / inject_Z (Z.of_nat n)).
Proof.
  intros Hn. unfold of_nat, of_Z, fdiv.
  destruct n as [|n]; [lia|].
  reflexivity.
Qed.

Lemma fsum_Fin (l : list Q) : fsum (Fin <$> l) = Fin (Qsum l).
Proof.
  induction l as [|q l IH]; [reflexivity|].
  cbn [fmap list_fmap fsum foldr Qsum]. fold (fsum (Fin <$> l)).
  rewrite IH. reflexivity.
Qed.

Lemma filter_notna_Fin (l : list Q) :
  filter (λ x, isfinite x = true) (Fin <$> l) = Fin <$> l.
Proof.
  induction l as [|q l IH]; [reflexivity|].
  rewrite fmap_cons, filter_cons_True by reflexivity.
  by rewrite IH.
Qed.

(** ** Rolling means *)

Lemma window_mean_Fin (w : nat) (l : list Q) :
  window_mean w (Fin <$> l) =
    if (w <=? length l)%nat
    then (match l with [] => NaN | _ => Fin (Qmean l) end)
    else NaN.
Proof.
  unfold window_mean. rewrite filter_notna_Fin, length_fmap, fsum_Fin.
  destruct (w <=? length l)%nat; [|reflexivity].
  destruct l as [|q l]; [reflexivity|].
  rewrite fdiv_of_nat by (simpl; lia). reflexivity.
Qed.

Lemma window_at_Fin (w i : nat) (l : list Q) :
  window_at w i (Fin <$> l) = Fin <$> take (S i - (S i - w)) (drop (S i - w) l).
Proof. unfold window_at. by rewrite fmap_take, fmap_drop. Qed.

Lemma length_rolling_mean w xs : length (rolling_mean w xs) = length xs.
Proof. unfold rolling_mean. by rewrite length_fmap, length_seq. Qed.

Lemma lookup_rolling_mean w (xs : values) i :
  i < length xs →
  rolling_mean w xs !! i = Some (window_mean w (window_at w i xs)).
Proof.
  intros Hi. unfold rolling_mean.
  rewrite list_lookup_fmap, lookup_seq_lt by done. reflexivity.
Qed.

Lemma lookup_rolling_mean_ge w (xs : values) i :
  length xs ≤ i → rolling_mean w xs !! i = None.
Proof.
  intros Hi. apply lookup_ge_None_2. by rewrite length_rolling_mean.
Qed.

(** Before the window is full the mean of finite values is NaN. *)
Lemma rolling_mean_Fin_head (w : nat) (l : list Q) i :
  i < length l → S i < w →
  rolling_mean w (Fin <$> l) !! i = Some NaN.
Proof.
  intros Hi Hw.
  rewrite lookup_rolling_mean by (by rewrite length_fmap).
  rewrite window_at_Fin, window_mean_Fin.
  destruct (w <=? _)%nat eqn:E; [|reflexivity].
  apply Nat.leb_le in E. rewrite length_take, length_drop in E. lia.
Qed.

Lemma length_slice_ending_at (w i : nat) (l : list Q) :
  i < length l → w ≤ S i → length (slice_ending_at w i l) = w.
Proof.
  intros Hi Hw. unfold slice_ending_at.
  rewrite length_take, length_drop. lia.
Qed.

(** From index [w - 1] on it is the mean of the [w] values ending there. *)
Lemma rolling_mean_Fin_full (w : nat) (l : list Q) i :
  1 ≤ w → i < length l → w ≤ S i →
  rolling_mean w (Fin <$> l) !! i = Some (Fin (Qmean (slice_ending_at w i l))).
Proof.
  intros Hw1 Hi Hw.
  rewrite lookup_rolling_mean by (by rewrite length_fmap).
  rewrite window_at_Fin, window_mean_Fin.
  replace (S i - (S i - w)) with w by lia.
  fold (slice_ending_at w i l).
  pose proof (length_slice_ending_at w i l Hi Hw) as Hlen.
  rewrite Hlen, Nat.leb_refl.
  destruct (slice_ending_at w i l); [simpl in Hlen; lia | reflexivity].
Qed.

Lemma filter_defined_none (f : nat → float) (a n : nat) :
  (∀ i, a ≤ i < a + n → f i = NaN) →
  filter defined (f <$> seq a n) = [].
Proof.
  revert a. induction n as [|n IH]; intros a Hf; [reflexivity|].
  cbn [seq]. rewrite fmap_cons, filter_cons_False.
  - apply IH. intros i Hi. apply Hf. lia.
  - rewrite Hf by lia. unfold defined. simpl. discriminate.
Qed.

Lemma filter_defined_all (f : nat → float) (a n : nat) :
  (∀ i, a ≤ i < a + n → defined (f i)) →
  filter defined (f <$> seq a n) = f <$> seq a n.
Proof.
  revert a. induction n as [|n IH]; intros a Hf; [reflexivity|].
  cbn [seq]. rewrite fmap_cons, filter_cons_True by (apply Hf; lia).
  f_equal. apply IH. intros i Hi. apply Hf. lia.
Qed.

Lemma rolling_mean_eq_lookup w (xs : values) :
  rolling_mean w xs = (λ i, default NaN (rolling_mean w xs !! i)) <$> seq 0 (length xs).
Proof.
  apply list_eq. intros i.
  rewrite list_lookup_fmap.
  destruct (decide (i < length xs)) as [Hi|Hi].
  - rewrite lookup_seq_lt by done. simpl.
    rewrite lookup_rolling_mean by done. reflexivity.
  - rewrite lookup_rolling_mean_ge, lookup_seq_ge by lia. reflexivity.
Qed.

(** The number of defined values of a rolling mean over finite values. *)
Lemma rolling_mean_Fin_count (w : nat) (l : list Q) :
  1 ≤ w → w ≤ length l →
  length (filter defined (rolling_mean w (Fin <$> l))) = length l - w + 1.
Proof.
  intros Hw1 Hw.
  rewrite rolling_mean_eq_lookup, length_fmap.
  replace (length l) with ((w - 1) + (length l - w + 1)) at 1 by lia.
  rewrite seq_app, fmap_app, filter_app.
  rewrite filter_defined_none, filter_defined_all.
  - simpl. by rewrite length_fmap, length_seq.
  - intros i Hi. rewrite rolling_mean_Fin_full by lia. reflexivity.
  - intros i Hi. rewrite rolling_mean_Fin_head by lia. reflexivity.
Qed.

(** C1.  For closes of length L and a window w >= 1, the moving average
    has one value per close; it is undefined (NaN) at every index below
    w - 1 and equals the arithmetic mean of the w closes ending at i at
    every index i >= w - 1; so for w <= L exactly L - w + 1 values are
    defined, and for w > L none is. *)
Theorem sma_defined_values (close : list Q) (w : nat) :
  1 ≤ w →
  let sma := SMA w (Fin <$> close) in
  length sma = length close ∧
  (∀ i, i < length close → i < w - 1 → sma !! i = Some NaN) ∧
  (∀ i, i < length close → w - 1 ≤ i →
     length (slice_ending_at w i close) = w ∧
     sma !! i = Some (Fin (Qmean (slice_ending_at w i close)))) ∧
  (w ≤ length close →
     length (filter defined sma) = length close - w + 1) ∧
  (length close < w → ∀ i, i < length close → sma !! i = Some NaN).
Proof.
  intros Hw sma. subst sma. unfold SMA.
  split_and!.
  - by rewrite length_rolling_mean, length_fmap.
  - intros i Hi Hlt. apply rolling_mean_Fin_head; lia.
  - intros i Hi Hge. split.
    + apply length_slice_ending_at; lia.
    + apply rolling_mean_Fin_full; lia.
  - intros Hle. by apply rolling_mean_Fin_count.
  - intros Hlt i Hi. apply rolling_mean_Fin_head; lia.
Qed.

Lemma sma_defined_values_witness :
  1 ≤ 3 ∧
  SMA 3 (Fin <$> [1; 2; 3; 4; 6]%Q) !! 1 = Some NaN ∧
  SMA 3 (Fin <$> [1; 2; 3; 4; 6]%Q) !! 4 = Some (Fin (13 # 3)) ∧
  length (filter defined (SMA 3 (Fin <$> [1; 2; 3; 4; 6]%Q))) = 3.
Proof.
  split; [lia|].
  destruct (sma_defined_values [1; 2; 3; 4; 6]%Q 3 ltac:(lia))
    as (_ & Hhead & Hfull & Hcount & _).
  split_and!.
  - apply Hhead; simpl; lia.
  - destruct (Hfull 4) as [_ ->]; simpl; [lia | lia | reflexivity].
  - apply Hcount. simpl. lia.
Defined.

(** ** The RSI pipeline on finite closes *)

Lemma diff_Fin_tail (t : list Q) (x : Q) :
  zip_with fsub (Fin <$> t) (take (length t) (Fin x :: (Fin <$> t)))
  = Fin <$> zip_with Qminus t (x :: t).
Proof.
  revert x. induction t as [|y t IH]; intros x; [reflexivity|].
  cbn [length take fmap list_fmap zip_with].
  f_equal. apply IH.
Qed.

Lemma delta_Fin (close : list Q) :
  delta (Fin <$> close) =
    match close with
    | [] => []
    | _ :: _ => NaN :: (Fin <$> deltaQ close)
    end.
Proof.
  destruct close as [|x t]; [reflexivity|].
  unfold delta, diff, shift1, deltaQ.
  rewrite length_fmap.
  cbn [length take fmap list_fmap zip_with tail].
  f_equal. rewrite <- (length_fmap Fin t) at 1.
  rewrite length_fmap. apply diff_Fin_tail.
Qed.

Lemma where_test (p : float → bool) (xs : values) (other : float) :
  where_ xs (p <$> xs) other = (λ x, if p x then x else other) <$> xs.
Proof.
  unfold where_. induction xs as [|x xs IH]; [reflexivity|].
  cbn [fmap list_fmap zip_with]. f_equal. apply IH.
Qed.

Lemma gain_terms_Fin (close : list Q) :
  gain_terms (Fin <$> close) = Fin <$> gain_termsQ close.
Proof.
  unfold gain_terms, gt_scalar. rewrite where_test, delta_Fin.
  destruct close as [|x t]; [reflexivity|].
  unfold gain_termsQ. rewrite !fmap_cons. f_equal.
  rewrite <- !list_fmap_compose. apply list_fmap_ext.
  intros _ d _. unfold compose, upQ, fgt, flt, of_Z.
  change (inject_Z 0) with 0%Q. by destruct (0 ?= d)%Q.
Qed.

Lemma loss_terms_Fin (close : list Q) :
  loss_terms (Fin <$> close) = Fin <$> loss_termsQ close.
Proof.
  unfold loss_terms, lt_scalar, neg. rewrite where_test, delta_Fin.
  destruct close as [|x t]; [reflexivity|].
  unfold loss_termsQ. rewrite !fmap_cons. f_equal.
  rewrite <- !list_fmap_compose. apply list_fmap_ext.
  intros _ d _. unfold compose, downQ, flt, of_Z.
  change (inject_Z 0) with 0%Q. by destruct (d ?= 0)%Q.
Qed.

Lemma length_deltaQ close : length (deltaQ close) = length close - 1.
Proof.
  unfold deltaQ. rewrite length_zip_with.
  destruct close; simpl; lia.
Qed.

Lemma length_gain_termsQ close : length (gain_termsQ close) = length close.
Proof.
  destruct close as [|x t]; [reflexivity|].
  unfold gain_termsQ. cbn [length]. rewrite length_fmap, length_deltaQ.
  simpl. lia.
Qed.

Lemma length_loss_termsQ close : length (loss_termsQ close) = length close.
Proof.
  destruct close as [|x t]; [reflexivity|].
  unfold loss_termsQ. cbn [length]. rewrite length_fmap, length_deltaQ.
  simpl. lia.
Qed.

Lemma lookup_deltaQ (close : list Q) i a b :
  close !! S i = Some a → close !! i = Some b →
  deltaQ close !! i = Some (a - b)%Q.
Proof.
  intros Ha Hb. unfold deltaQ. rewrite lookup_zip_with.
  rewrite lookup_tail, Ha, Hb. reflexivity.
Qed.

Lemma upQ_max d : (upQ d == Qmax d 0)%Q.
Proof.
  unfold upQ. destruct (Qcompare_spec 0 d) as [H|H|H].
  - rewrite Q.max_r by (rewrite H; apply Qle_refl). reflexivity.
  - rewrite Q.max_l by (by apply Qlt_le_weak). reflexivity.
  - rewrite Q.max_r by (by apply Qlt_le_weak). reflexivity.
Qed.

Lemma downQ_max d : (downQ d == Qmax (- d) 0)%Q.
Proof.
  unfold downQ. destruct (Qcompare_spec d 0) as [H|H|H].
  - rewrite Q.max_r by (rewrite H; apply Qle_refl). reflexivity.
  - rewrite Q.max_l by lra. reflexivity.
  - rewrite Q.max_r by lra. reflexivity.
Qed.

Lemma length_gain xs : length (gain xs) = length xs.
Proof.
  unfold gain, gain_terms, where_, gt_scalar, delta, diff, shift1.
  rewrite length_rolling_mean, !length_zip_with, length_fmap, length_zip_with.
  rewrite length_take. simpl. lia.
Qed.

Lemma length_loss xs : length (loss xs) = length xs.
Proof.
  unfold loss, loss_terms, neg, where_, lt_scalar, delta, diff, shift1.
  rewrite length_rolling_mean, length_fmap.
  rewrite !length_zip_with, length_fmap, length_zip_with.
  rewrite length_take. simpl. lia.
Qed.

Lemma length_RSI xs : length (RSI xs) = length xs.
Proof.
  unfold RSI, scalar_sub, scalar_div, scalar_add, rs, div.
  rewrite !length_fmap, length_zip_with, length_gain, length_loss. lia.
Qed.

Lemma lookup_RSI (xs : values) i g l :
  gain xs !! i = Some g → loss xs !! i = Some l →
  RSI xs !! i = Some (rsi_of g l).
Proof.
  intros Hg Hl. unfold RSI, scalar_sub, scalar_div, scalar_add, rs, div.
  rewrite !list_lookup_fmap, lookup_zip_with, Hg, Hl. reflexivity.
Qed.

Lemma gain_Fin_head (close : list Q) i :
  i < length close → i < 13 → gain (Fin <$> close) !! i = Some NaN.
Proof.
  intros Hi H13. unfold gain. rewrite gain_terms_Fin.
  apply rolling_mean_Fin_head; [by rewrite length_gain_termsQ | lia].
Qed.

Lemma loss_Fin_head (close : list Q) i :
  i < length close → i < 13 → loss (Fin <$> close) !! i = Some NaN.
Proof.
  intros Hi H13. unfold loss. rewrite loss_terms_Fin.
  apply rolling_mean_Fin_head; [by rewrite length_loss_termsQ | lia].
Qed.

Lemma gain_Fin_full (close : list Q) i :
  i < length close → 13 ≤ i →
  gain (Fin <$> close) !! i
  = Some (Fin (Qmean (slice_ending_at 14 i (gain_termsQ close)))).
Proof.
  intros Hi H13. unfold gain. rewrite gain_terms_Fin.
  apply rolling_mean_Fin_full; [lia | by rewrite length_gain_termsQ | lia].
Qed.

Lemma loss_Fin_full (close : list Q) i :
  i < length close → 13 ≤ i →
  loss (Fin <$> close) !! i
  = Some (Fin (Qmean (slice_ending_at 14 i (loss_termsQ close)))).
Proof.
  intros Hi H13. unfold loss. rewrite loss_terms_Fin.
  apply rolling_mean_Fin_full; [lia | by rewrite length_loss_termsQ | lia].
Qed.

(** *** Line 79 at one index *)

Lemma rsi_of_positive_loss (a b : Q) :
  (0 <= a)%Q → (0 < b)%Q →
  ∃ q, rsi_of (Fin a) (Fin b) = Fin q ∧ (0 <= q)%Q ∧ (q <= 100)%Q.
Proof.
  intros Ha Hb.
  assert (0 <= a / b)%Q as Hr.
  { apply Qle_shift_div_l; [done | lra]. }
  unfold rsi_of, of_Z. cbn [fdiv].
  rewrite (proj1 (Qgt_alt b 0) Hb). cbn [fadd fdiv].
  assert (0 < inject_Z 1 + a / b)%Q as Ht.
  { change (inject_Z 1) with 1%Q. lra. }
  rewrite (proj1 (Qgt_alt _ 0) Ht). cbn [fsub fopp fadd].
  eexists. split; [reflexivity|].
  change (inject_Z 1) with 1%Q in *. change (inject_Z 100) with 100%Q.
  assert (0 <= 100 / (1 + a / b))%Q.
  { apply Qle_shift_div_l; [done | lra]. }
  assert (100 / (1 + a / b) <= 100)%Q.
  { apply Qle_shift_div_r; [done | lra]. }
  split; lra.
Qed.

Lemma rsi_of_zero_loss (a b : Q) :
  (b == 0)%Q → (0 < a)%Q → rsi_of (Fin a) (Fin b) = Fin 100.
Proof.
  intros Hb Ha. unfold rsi_of, of_Z. cbn [fdiv].
  rewrite (proj1 (Qeq_alt b 0) Hb). unfold signed_inf.
  rewrite (proj1 (Qgt_alt a 0) Ha). reflexivity.
Qed.

Lemma rsi_of_no_movement (a b : Q) :
  (b == 0)%Q → (a == 0)%Q → rsi_of (Fin a) (Fin b) = NaN.
Proof.
  intros Hb Ha. unfold rsi_of, of_Z. cbn [fdiv].
  rewrite (proj1 (Qeq_alt b 0) Hb). unfold signed_inf.
  rewrite (proj1 (Qeq_alt a 0) Ha). reflexivity.
Qed.

(** *** Signs along the pipeline, for arbitrary closes *)

Lemma gain_terms_nonneg (xs : values) : Forall nonneg (gain_terms xs).
Proof.
  unfold gain_terms, gt_scalar. rewrite where_test.
  apply Forall_fmap, Forall_true. intros x.
  destruct x as [q| | |]; cbn; try done.
  destruct (Qcompare_spec (inject_Z 0) q) as [H|H|H]; cbn; try done.
  change (inject_Z 0) with 0%Q in H. lra.
Qed.

Lemma loss_terms_nonneg (xs : values) : Forall nonneg (loss_terms xs).
Proof.
  unfold loss_terms, lt_scalar, neg. rewrite where_test.
  rewrite <- list_fmap_compose.
  apply Forall_fmap, Forall_true. intros x.
  destruct x as [q| | |]; cbn; try done.
  destruct (Qcompare_spec q (inject_Z 0)) as [H|H|H]; cbn; try done.
  change (inject_Z 0) with 0%Q in H. lra.
Qed.

Lemma fadd_nonneg (x y : float) : nonneg x → nonneg y → nonneg (x + y)%F.
Proof. destruct x, y; cbn; try done. intros. lra. Qed.

Lemma fsum_nonneg (l : values) : Forall nonneg l → nonneg (fsum l).
Proof.
  induction 1 as [|x l Hx _ IH]; [cbn; lra|].
  by apply fadd_nonneg.
Qed.

Lemma window_mean_nonneg (w : nat) (win : values) :
  Forall nonneg win →
  window_mean w win = NaN ∨ nonneg (window_mean w win).
Proof.
  intros Hwin. unfold window_mean.
  match goal with
  | |- context [@filter _ _ _ ?P ?D win] =>
      assert (Forall nonneg (@filter _ _ _ P D win)) as Hobs
        by (apply Forall_forall; intros y [_ Hy]%list_elem_of_filter;
            by apply (proj1 (Forall_forall _ _) Hwin));
      set (obs := @filter _ _ _ P D win) in *
  end.
  destruct (w <=? length obs)%nat; [|by left].
  pose proof (fsum_nonneg obs Hobs) as Hsum.
  destruct obs as [|x l]; [by left|]. right.
  assert (0 < inject_Z (Z.of_nat (length (x :: l))))%Q as Hn
    by (unfold Qlt; simpl; lia).
  unfold of_nat, of_Z.
  destruct (fsum (x :: l)) as [s| | |]; try done; cbn [fdiv nonneg].
  rewrite (proj1 (Qgt_alt _ 0) Hn). cbn [nonneg] in *.
    apply Qle_shift_div_l; [done | by rewrite Qmult_0_l].
Qed.

Lemma rolling_mean_nonneg (w : nat) (xs : values) i v :
  Forall nonneg xs → rolling_mean w xs !! i = Some v → v = NaN ∨ nonneg v.
Proof.
  intros Hxs Hv.
  assert (i < length xs) as Hi.
  { apply lookup_lt_Some in Hv. by rewrite length_rolling_mean in Hv. }
  rewrite lookup_rolling_mean in Hv by done. injection Hv as <-.
  apply window_mean_nonneg. unfold window_at.
  by apply Forall_take, Forall_drop.
Qed.

Lemma rsi_of_range (g l : float) :
  g = NaN ∨ nonneg g → l = NaN ∨ nonneg l →
  rsi_of g l = NaN
  ∨ ∃ q, rsi_of g l = Fin q ∧ (0 <= q)%Q ∧ (q <= 100)%Q.
Proof.
  intros [->|Hg] [->|Hl]; [by left | by left | left; by destruct g |].
  destruct g as [a| | |], l as [b| | |]; try done; cbn [nonneg] in *.
  - destruct (Qcompare_spec b 0) as [Hb|Hb|Hb]; [| lra |].
    + destruct (Qcompare_spec a 0) as [Ha|Ha|Ha]; [| lra |].
      * left. by apply rsi_of_no_movement.
      * right. exists 100%Q. rewrite rsi_of_zero_loss by done.
        split; [reflexivity | split; lra].
    + right. by apply rsi_of_positive_loss.
  - right. eexists. split; [reflexivity|]. split; vm_compute; discriminate.
  - right. exists 100%Q. split; [|split; lra].
    unfold rsi_of, of_Z. cbn [fdiv].
    by destruct (Qcompare_spec b 0) as [Hb|Hb|Hb]; [| lra |].
  - by left.
Qed.

(** Every RSI value is NaN or a number in [0, 100]. *)
Lemma RSI_cases (xs : values) i v :
  RSI xs !! i = Some v →
  v = NaN ∨ ∃ q, v = Fin q ∧ (0 <= q)%Q ∧ (q <= 100)%Q.
Proof.
  intros Hv.
  assert (i < length xs) as Hi.
  { apply lookup_lt_Some in Hv. by rewrite length_RSI in Hv. }
  destruct (lookup_lt_is_Some_2 (gain xs) i) as [g Hg];
    [by rewrite length_gain|].
  destruct (lookup_lt_is_Some_2 (loss xs) i) as [l Hl];
    [by rewrite length_loss|].
  rewrite (lookup_RSI _ _ _ _ Hg Hl) in Hv. injection Hv as <-.
  apply rsi_of_range.
  - exact (rolling_mean_nonneg 14 _ i g (gain_terms_nonneg xs) Hg).
  - exact (rolling_mean_nonneg 14 _ i l (loss_terms_nonneg xs) Hl).
Qed.

(** C2, against the specification's reading.  On fifteen rising closes
    the difference at index 0 is undefined, yet the script's gain and loss
    terms there are 0; its first RSI value sits at index 13, where the
    five steps as worded (terms only where the difference exists, hence a
    first full window at index 14) leave the RSI undefined. *)
Lemma rsi_warmup_counterexample :
  let close := Fin <$> closes15 in
  delta close !! 0 = Some NaN ∧
  gain_terms close !! 0 = Some (Fin 0) ∧
  loss_terms close !! 0 = Some (Fin 0) ∧
  spec_gain_terms close !! 0 = Some NaN ∧
  spec_RSI close !! 13 = Some NaN ∧
  RSI close !! 13 = Some (Fin 100) ∧
  RSI close ≠ spec_RSI close.
Proof.
  split_and!; try (vm_compute; reflexivity).
  intros Heq.
  assert (RSI (Fin <$> closes15) !! 13 = spec_RSI (Fin <$> closes15) !! 13) as H
    by (by rewrite Heq).
  vm_compute in H. discriminate.
Qed.

(** C2, as the script computes it.  For finite closes: the difference is
    undefined at index 0 and is close[i] - close[i-1] from index 1 on; the
    gain and loss terms are numbers at every index, 0 at index 0 and
    max(delta, 0) and max(-delta, 0) from index 1 on; their averages are
    undefined below index 13 and from index 13 on are the means of the 14
    terms ending there; the RSI is 100 - 100 / (1 + gain / loss) of the two
    averages at every index, and is undefined below index 13. *)
Theorem rsi_steps (close : list Q) :
  let xs := Fin <$> close in
  (0 < length close → delta xs !! 0 = Some NaN) ∧
  (∀ i a b, close !! S i = Some a → close !! i = Some b →
     delta xs !! S i = Some (Fin (a - b))) ∧
  gain_terms xs = Fin <$> gain_termsQ close ∧
  loss_terms xs = Fin <$> loss_termsQ close ∧
  (0 < length close →
     gain_termsQ close !! 0 = Some 0%Q ∧ loss_termsQ close !! 0 = Some 0%Q) ∧
  (∀ i a b, close !! S i = Some a → close !! i = Some b →
     ∃ g l, gain_termsQ close !! S i = Some g ∧
            loss_termsQ close !! S i = Some l ∧
            (g == Qmax (a - b) 0)%Q ∧ (l == Qmax (- (a - b)) 0)%Q) ∧
  (∀ i, i < length close → i < 13 →
     gain xs !! i = Some NaN ∧ loss xs !! i = Some NaN ∧
     RSI xs !! i = Some NaN) ∧
  (∀ i, i < length close → 13 ≤ i →
     length (slice_ending_at 14 i (gain_termsQ close)) = 14 ∧
     length (slice_ending_at 14 i (loss_termsQ close)) = 14 ∧
     gain xs !! i = Some (Fin (Qmean (slice_ending_at 14 i (gain_termsQ close)))) ∧
     loss xs !! i = Some (Fin (Qmean (slice_ending_at 14 i (loss_termsQ close))))) ∧
  (∀ i, i < length close →
     ∃ g l, gain xs !! i = Some g ∧ loss xs !! i = Some l ∧
            RSI xs !! i = Some (of_Z 100 - of_Z 100 / (of_Z 1 + g / l))%F).
Proof.
  intros xs. subst xs. split_and!.
  - intros Hlen. rewrite delta_Fin.
    destruct close; [simpl in Hlen; lia | done].
  - intros i a b Ha Hb. rewrite delta_Fin.
    destruct close as [|x t]; [done|].
    rewrite lookup_cons, list_lookup_fmap.
    by rewrite (lookup_deltaQ _ _ _ _ Ha Hb).
  - apply gain_terms_Fin.
  - apply loss_terms_Fin.
  - intros Hlen. destruct close; [simpl in Hlen; lia | done].
  - intros i a b Ha Hb.
    destruct close as [|x t]; [done|].
    exists (upQ (a - b)), (downQ (a - b)).
    unfold gain_termsQ, loss_termsQ.
    rewrite !lookup_cons, !list_lookup_fmap.
    rewrite (lookup_deltaQ _ _ _ _ Ha Hb).
    split_and!; [done | done | apply upQ_max | apply downQ_max].
  - intros i Hi H13.
    pose proof (gain_Fin_head _ _ Hi H13) as Hg.
    pose proof (loss_Fin_head _ _ Hi H13) as Hl.
    split_and!; [done | done |].
    by rewrite (lookup_RSI _ _ _ _ Hg Hl).
  - intros i Hi H13. split_and!.
    + apply length_slice_ending_at; [by rewrite length_gain_termsQ | lia].
    + apply length_slice_ending_at; [by rewrite length_loss_termsQ | lia].
    + by apply gain_Fin_full.
    + by apply loss_Fin_full.
  - intros i Hi.
    destruct (lookup_lt_is_Some_2 (gain (Fin <$> close)) i) as [g Hg];
      [by rewrite length_gain, length_fmap|].
    destruct (lookup_lt_is_Some_2 (loss (Fin <$> close)) i) as [l Hl];
      [by rewrite length_loss, length_fmap|].
    exists g, l. split_and!; [done | done |].
    by apply lookup_RSI.
Qed.

Lemma rsi_steps_witness :
  delta (Fin <$> closes15) !! 0 = Some NaN ∧
  delta (Fin <$> closes15) !! 2 = Some (Fin 1) ∧
  gain (Fin <$> closes15) !! 12 = Some NaN ∧
  gain (Fin <$> closes15) !! 13 = Some (Fin (13 # 14)).
Proof.
  destruct (rsi_steps closes15) as (H0 & Hd & _ & _ & _ & _ & Hh & Hf & _).
  split_and!.
  - apply H0. simpl. lia.
  - apply (Hd 1 3%Q 2%Q); reflexivity.
  - apply (Hh 12); simpl; lia.
  - destruct (Hf 13) as (_ & _ & -> & _); simpl; [lia | lia | reflexivity].
Defined.

(** C3.  For every close sequence, every defined RSI value is a number
    between 0 and 100; where the average loss is zero and the average gain
    is positive the RSI is exactly 100; where both averages are zero the
    RSI is undefined (NaN). *)
Theorem rsi_range (close : values) (i : nat) :
  (∀ v, RSI close !! i = Some v → defined v →
     ∃ q, v = Fin q ∧ (0 <= q)%Q ∧ (q <= 100)%Q) ∧
  (∀ g l, gain close !! i = Some (Fin g) → loss close !! i = Some (Fin l) →
     (l == 0)%Q → (0 < g)%Q → RSI close !! i = Some (Fin 100)) ∧
  (∀ g l, gain close !! i = Some (Fin g) → loss close !! i = Some (Fin l) →
     (l == 0)%Q → (g == 0)%Q → RSI close !! i = Some NaN).
Proof.
  split_and!.
  - intros v Hv Hdef.
    destruct (RSI_cases _ _ _ Hv) as [->|Hq]; [done | exact Hq].
  - intros g l Hg Hl Hl0 Hg0.
    rewrite (lookup_RSI _ _ _ _ Hg Hl). f_equal. by apply rsi_of_zero_loss.
  - intros g l Hg Hl Hl0 Hg0.
    rewrite (lookup_RSI _ _ _ _ Hg Hl). f_equal. by apply rsi_of_no_movement.
Qed.

Lemma rsi_range_witness :
  RSI (Fin <$> closes15) !! 13 = Some (Fin 100) ∧
  (∃ q, Fin 100 = Fin q ∧ (0 <= q)%Q ∧ (q <= 100)%Q) ∧
  RSI (Fin <$> replicate 15 1%Q) !! 13 = Some NaN.
Proof.
  destruct (rsi_range (Fin <$> closes15) 13) as (Hb & H100 & _).
  destruct (rsi_range (Fin <$> replicate 15 1%Q) 13) as (_ & _ & Hnan).
  split_and!.
  - apply (H100 (13 # 14) (0 # 14)); reflexivity.
  - apply Hb; [vm_compute; reflexivity | reflexivity].
  - apply (Hnan (0 # 14) (0 # 14)); reflexivity.
Defined.

(** ** Positional access *)

Lemma iloc_from_end {A} (l1 l2 : list A) (x : A) :
  iloc (l1 ++ x :: l2) (- Z.of_nat (S (length l2))) = Ok x.
Proof.
  unfold iloc. rewrite length_app. cbn [length].
  destruct (Z.ltb_spec (- Z.of_nat (S (length l2))) 0); [|lia].
  destruct (Z.leb_spec 0
    (- Z.of_nat (S (length l2)) + Z.of_nat (length l1 + S (length l2))));
    [|lia].
  destruct (Z.ltb_spec
    (- Z.of_nat (S (length l2)) + Z.of_nat (length l1 + S (length l2)))
    (Z.of_nat (length l1 + S (length l2)))); [|lia].
  cbn [andb].
  replace (Z.to_nat _) with (length l1) by lia.
  by rewrite list_lookup_middle.
Qed.

Lemma iloc_last {A} (l : list A) (x : A) : iloc (l ++ [x]) (-1) = Ok x.
Proof. apply (iloc_from_end l [] x). Qed.

Lemma iloc_last_but_one {A} (l : list A) (y x : A) :
  iloc (l ++ [y; x]) (-2) = Ok y.
Proof. apply (iloc_from_end l [x] y). Qed.

Lemma iloc_first {A} (x : A) (l : list A) : iloc (x :: l) 0 = Ok x.
Proof.
  unfold iloc. cbn [length Z.ltb Z.compare].
  destruct (Z.ltb_spec 0 (Z.of_nat (S (length l)))); [|lia].
  reflexivity.
Qed.

(** ** Percentage changes *)

Lemma day_change_two (l : values) (prev latest : float) :
  day_change (l ++ [prev; latest])
  = Ok (((latest - prev) / prev) * of_Z 100)%F.
Proof.
  unfold day_change.
  replace (iloc (l ++ [prev; latest]) (-1)) with (Ok (A:=float) latest).
  2:{ rewrite (cons_middle prev l [latest]), (assoc_L (++)).
      by rewrite iloc_last. }
  rewrite iloc_last_but_one.
  rewrite length_app. cbn [length].
  destruct (Nat.ltb_spec 1 (length l + 2)); [reflexivity | lia].
Qed.

Lemma day_change_one (p : float) :
  day_change [p] = Ok (((p - p) / p) * of_Z 100)%F.
Proof. reflexivity. Qed.

Lemma pct_same_nonzero (q : Q) :
  ¬ (q == 0)%Q →
  ∃ r, (((Fin q - Fin q) / Fin q) * of_Z 100)%F = Fin r ∧ (r == 0)%Q.
Proof.
  intros Hq. unfold of_Z. cbn [fsub fopp fadd fdiv].
  destruct (Qcompare_spec q 0) as [H|H|H]; [done | |];
    (eexists; split; [reflexivity|]);
    change (inject_Z 100) with 100%Q; field; done.
Qed.

(** A zero divisor never leaves a finite quotient. *)
Lemma pct_zero_divisor (x : float) (z : Q) :
  (z == 0)%Q → isfinite (((x - Fin z) / Fin z) * of_Z 100)%F = false.
Proof.
  intros Hz. unfold of_Z.
  destruct x as [a| | |]; cbn [fsub fopp fadd fdiv];
    try rewrite (proj1 (Qeq_alt z 0) Hz); [|reflexivity..].
  unfold signed_inf. by destruct (a + - z ?= 0)%Q.
Qed.

Lemma period_performance_ends (first last : float) (mid : values) :
  period_performance (first :: mid ++ [last])
  = Ok (((last - first) / first) * of_Z 100)%F.
Proof.
  unfold period_performance.
  rewrite (app_comm_cons mid [last] first), iloc_last.
  rewrite <- app_comm_cons, iloc_first. reflexivity.
Qed.

Lemma two_points_shape {A} (l : list A) :
  2 ≤ length l → ∃ first mid last, l = first :: mid ++ [last].
Proof.
  intros Hlen. destruct l as [|x l]; [simpl in Hlen; lia|].
  assert (l ≠ []) as Hne by (intros ->; simpl in Hlen; lia).
  destruct (proj2 (last_is_Some l) Hne) as [y Hy].
  apply last_Some in Hy as [l' ->]. by exists x, l', y.
Qed.

(** ** The two watchlist loops *)

Section watchlist.
Context {Timestamp : Type}.
Variable strftime : Timestamp → result string.
Variable get_stock_data : string → string → result (@DataFrame Timestamp).

#[local] Abbreviation close_series := (Dashboard.close_series get_stock_data).
#[local] Abbreviation snapshot_step :=
  (Dashboard.snapshot_step strftime get_stock_data).
#[local] Abbreviation portfolio_data :=
  (Dashboard.portfolio_data strftime get_stock_data).
#[local] Abbreviation perf_step := (Dashboard.perf_step get_stock_data).
#[local] Abbreviation perf_data := (Dashboard.perf_data get_stock_data).
#[local] Abbreviation has_two_points :=
  (Dashboard.has_two_points get_stock_data).

(** The change stored in a row is the day change of the closes. *)
Lemma snapshot_try_day_change rows name ticker :
  snapshot_try strftime get_stock_data rows name ticker =
    (data ← close_series ticker "1d";
     if negb (s_empty data) then
       current_price ← iloc data.*2 (-1);
       change ← day_change data.*2;
       stamp ← iloc data.*1 (-1);
       last_updated ← strftime stamp;
       Ok (rows ++
             [ {| Name := name; Ticker := ticker;
                  Price := Num current_price; Change := Num change;
                  Last_Updated := Str last_updated |} ])
     else
       Ok (rows ++ [unavailable name ticker])).
Proof.
  unfold snapshot_try, day_change.
  destruct (close_series ticker "1d") as [data|e];
    cbn [mbind result_bind]; [|done].
  destruct (s_empty data); cbn [negb]; [done|].
  destruct (iloc data.*2 (-1)) as [current_price|e];
    cbn [mbind result_bind]; [|done].
  rewrite length_fmap.
  destruct (1 <? length data)%nat; [|reflexivity].
  destruct (iloc data.*2 (-2)); reflexivity.
Qed.

Lemma snapshot_step_row rows name ticker :
  ∃ s, snapshot_step rows (name, ticker) = rows ++ [s]
       ∧ Name s = name ∧ Ticker s = ticker.
Proof.
  unfold Dashboard.snapshot_step. rewrite snapshot_try_day_change.
  destruct (close_series ticker "1d") as [data|e];
    cbn [mbind result_bind]; [|by eexists].
  destruct (s_empty data); cbn [negb]; [by eexists|].
  destruct (iloc data.*2 (-1)); cbn [mbind result_bind]; [|by eexists].
  destruct (day_change data.*2); cbn [mbind result_bind]; [|by eexists].
  destruct (iloc data.*1 (-1)) as [stamp|e];
    cbn [mbind result_bind]; [|by eexists].
  destruct (strftime stamp); cbn [mbind result_bind]; by eexists.
Qed.

Lemma snapshot_step_unavailable rows name ticker :
  (∃ e, close_series ticker "1d" = Raise e) ∨ close_series ticker "1d" = Ok [] →
  snapshot_step rows (name, ticker) = rows ++ [unavailable name ticker].
Proof.
  unfold Dashboard.snapshot_step. rewrite snapshot_try_day_change.
  by intros [[e ->] | ->].
Qed.

Lemma close_series_fetch_failed ticker period e :
  get_stock_data ticker period = Raise e → close_series ticker period = Raise e.
Proof. unfold Dashboard.close_series. by intros ->. Qed.

Lemma close_series_empty_frame ticker period frame :
  get_stock_data ticker period = Ok frame → index frame = [] →
  (∃ e, close_series ticker period = Raise e) ∨ close_series ticker period = Ok [].
Proof.
  unfold Dashboard.close_series, getitem. intros -> Hidx.
  cbn [mbind result_bind]. rewrite Hidx.
  destruct (columns frame !! "Close"); [by right | left; by eexists].
Qed.

(** A non-empty series yields a populated row when the latest label
    renders, and the placeholder row when it does not. *)
Lemma snapshot_step_populated rows name ticker data stamp price :
  close_series ticker "1d" = Ok (data ++ [(stamp, price)]) →
  ∃ change,
    day_change (data ++ [(stamp, price)]).*2 = Ok change ∧
    snapshot_step rows (name, ticker)
    = match strftime stamp with
      | Ok last_updated =>
          rows ++ [ {| Name := name; Ticker := ticker;
                       Price := Num price; Change := Num change;
                       Last_Updated := Str last_updated |} ]
      | Raise _ => rows ++ [unavailable name ticker]
      end.
Proof.
  intros Hdata.
  unfold Dashboard.snapshot_step. rewrite snapshot_try_day_change. rewrite Hdata.
  cbn [mbind result_bind].
  assert (s_empty (data ++ [(stamp, price)]) = false) as ->.
  { unfold s_empty. rewrite length_app. cbn [length].
    apply Nat.eqb_neq. lia. }
  cbn [negb]. rewrite !fmap_app. cbn [fmap list_fmap fst snd].
  rewrite !iloc_last. cbn [mbind result_bind].
  assert (∃ change, day_change (data.*2 ++ [price]) = Ok change) as [change Hc].
  { destruct (decide (data = [])) as [->|Hne].
    - eexists. apply day_change_one.
    - destruct (proj2 (last_is_Some data) Hne) as [[stamp' prev] Hlast].
      apply last_Some in Hlast as [data' ->].
      rewrite fmap_app, <- (assoc_L (++)). cbn [fmap list_fmap snd app].
      eexists. apply day_change_two. }
  exists change. split; [done|]. rewrite Hc. cbn [mbind result_bind].
  by destruct (strftime stamp).
Qed.

Lemma snapshot_step_acc rows item :
  snapshot_step rows item = rows ++ snapshot_step [] item.
Proof.
  destruct item as [name ticker].
  unfold Dashboard.snapshot_step. rewrite !snapshot_try_day_change.
  destruct (close_series ticker "1d") as [data|e];
    cbn [mbind result_bind]; [|done].
  destruct (s_empty data); cbn [negb]; [done|].
  destruct (iloc data.*2 (-1)); cbn [mbind result_bind]; [|done].
  destruct (day_change data.*2); cbn [mbind result_bind]; [|done].
  destruct (iloc data.*1 (-1)) as [stamp|e];
    cbn [mbind result_bind]; [|done].
  by destruct (strftime stamp).
Qed.

Lemma portfolio_data_acc rows watchlist :
  foldl snapshot_step rows watchlist = rows ++ portfolio_data watchlist.
Proof.
  unfold Dashboard.portfolio_data.
  revert rows. induction watchlist as [|item wl IH]; intros rows.
  - by rewrite app_nil_r.
  - cbn [foldl].
    rewrite (IH (snapshot_step rows item)), (IH (snapshot_step [] item)).
    by rewrite (snapshot_step_acc rows), (assoc_L (++)).
Qed.

Lemma portfolio_data_cons item watchlist :
  portfolio_data (item :: watchlist)
  = snapshot_step [] item ++ portfolio_data watchlist.
Proof. apply (portfolio_data_acc (snapshot_step [] item) watchlist). Qed.

Lemma portfolio_data_app l1 l2 :
  portfolio_data (l1 ++ l2) = portfolio_data l1 ++ portfolio_data l2.
Proof.
  induction l1 as [|item l1 IH]; [done|].
  rewrite <- app_comm_cons, !portfolio_data_cons, IH.
  by rewrite (assoc_L (++)).
Qed.

Lemma portfolio_data_keys watchlist :
  (λ s, (Name s, Ticker s)) <$> portfolio_data watchlist = watchlist.
Proof.
  induction watchlist as [|[name ticker] wl IH]; [done|].
  rewrite portfolio_data_cons, fmap_app, IH.
  destruct (snapshot_step_row [] name ticker) as (s & -> & <- & <-).
  done.
Qed.

Lemma length_portfolio_data watchlist :
  length (portfolio_data watchlist) = length watchlist.
Proof.
  rewrite <- (portfolio_data_keys watchlist) at 2. by rewrite length_fmap.
Qed.

(** C6.  The table has one row per watchlist pair, in the watchlist's
    order, each carrying its pair's name and ticker; a ticker whose fetch
    raises, or returns a frame without rows, gets the row whose price,
    change and date are all "N/A"; and the rows of the other tickers are
    what the table without that pair holds. *)
Theorem watchlist_rows (watchlist : list (string * string)) :
  length (portfolio_data watchlist) = length watchlist ∧
  (λ s, (Name s, Ticker s)) <$> portfolio_data watchlist = watchlist ∧
  (∀ i name ticker, watchlist !! i = Some (name, ticker) →
     (∃ e, get_stock_data ticker "1d" = Raise e)
     ∨ (∃ frame, get_stock_data ticker "1d" = Ok frame ∧ index frame = []) →
     portfolio_data watchlist !! i = Some (unavailable name ticker)) ∧
  (∀ l1 l2 item, watchlist = l1 ++ item :: l2 →
     portfolio_data (l1 ++ l2)
     = delete (length l1) (portfolio_data watchlist)).
Proof.
  split_and!.
  - apply length_portfolio_data.
  - apply portfolio_data_keys.
  - intros i name ticker Hi Hfail.
    apply list_elem_of_split_length in Hi as (l1 & l2 & -> & ->).
    rewrite portfolio_data_app, portfolio_data_cons.
    rewrite (snapshot_step_unavailable [] name ticker).
    + rewrite <- (length_portfolio_data l1). cbn [app].
      by rewrite list_lookup_middle.
    + destruct Hfail as [[e He] | (frame & Hf & Hidx)].
      * left. exists e. by apply close_series_fetch_failed.
      * by eapply close_series_empty_frame.
  - intros l1 l2 [name ticker] ->.
    rewrite !portfolio_data_app, portfolio_data_cons.
    destruct (snapshot_step_row [] name ticker) as (s & -> & _).
    rewrite <- (length_portfolio_data l1). cbn [app].
    by rewrite delete_middle.
Qed.

(** *** The performance list *)

Lemma perf_step_two_points rows name ticker data :
  close_series ticker "1mo" = Ok data → 2 ≤ length data →
  ∃ first mid last,
    data.*2 = first :: mid ++ [last] ∧
    perf_step rows (name, ticker)
    = rows ++ [ {| perf_ticker := ticker;
                   performance := (((last - first) / first) * of_Z 100)%F |} ].
Proof.
  intros Hdata Hlen.
  destruct (two_points_shape data.*2) as (first & mid & last & Hshape);
    [by rewrite length_fmap|].
  exists first, mid, last. split; [done|].
  unfold Dashboard.perf_step, perf_try. rewrite Hdata.
  cbn [mbind result_bind].
  assert (s_empty data = false) as ->
    by (unfold s_empty; apply Nat.eqb_neq; lia).
  assert ((1 <? length data)%nat = true) as ->
    by (apply Nat.ltb_lt; lia).
  cbn [negb andb]. by rewrite Hshape, period_performance_ends.
Qed.

Lemma perf_step_short rows name ticker data :
  close_series ticker "1mo" = Ok data → length data < 2 →
  perf_step rows (name, ticker) = rows.
Proof.
  intros Hdata Hlen.
  unfold Dashboard.perf_step, perf_try. rewrite Hdata.
  cbn [mbind result_bind].
  assert ((1 <? length data)%nat = false) as ->
    by (apply Nat.ltb_ge; lia).
  by rewrite andb_false_r.
Qed.

Lemma perf_step_failed rows name ticker e :
  close_series ticker "1mo" = Raise e → perf_step rows (name, ticker) = rows.
Proof.
  intros Hdata. unfold Dashboard.perf_step, perf_try. by rewrite Hdata.
Qed.

(** One iteration adds the ticker exactly when its series has two points. *)
Lemma perf_step_tickers rows name ticker :
  perf_ticker <$> perf_step rows (name, ticker)
  = (perf_ticker <$> rows) ++ (if has_two_points ticker then [ticker] else []).
Proof.
  unfold Dashboard.has_two_points.
  destruct (close_series ticker "1mo") as [data|e] eqn:Hdata.
  - destruct (Nat.ltb_spec 1 (length data)) as [Hlen|Hlen].
    + destruct (perf_step_two_points rows name ticker data Hdata Hlen)
        as (first & mid & last & _ & ->).
      by rewrite fmap_app.
    + rewrite (perf_step_short rows name ticker data Hdata) by lia.
      by rewrite app_nil_r.
  - rewrite (perf_step_failed rows name ticker e Hdata).
    by rewrite app_nil_r.
Qed.

Lemma perf_data_tickers_acc rows watchlist :
  perf_ticker <$> foldl perf_step rows watchlist
  = (perf_ticker <$> rows)
    ++ filter (λ t, has_two_points t = true) watchlist.*2.
Proof.
  revert rows. induction watchlist as [|[name ticker] wl IH]; intros rows.
  - by rewrite app_nil_r.
  - cbn [foldl]. rewrite IH, perf_step_tickers, <- (assoc_L (++)).
    f_equal. rewrite fmap_cons. cbn [snd].
    destruct (has_two_points ticker) eqn:Ht.
    + by rewrite filter_cons_True.
    + by rewrite filter_cons_False by (by rewrite Ht).
Qed.

Lemma perf_data_tickers watchlist :
  perf_ticker <$> perf_data watchlist
  = filter (λ t, has_two_points t = true) watchlist.*2.
Proof. apply (perf_data_tickers_acc [] watchlist). Qed.

(** C5.  The period performance of a close series with at least two
    points is ((last - first) / first) * 100, so closes 50, 55, 60 give
    20; the loop adds an entry with that value for such a ticker, and adds
    nothing for a ticker whose series is empty or has a single point: no
    entry of the list carries that ticker. *)
Theorem period_performance_entries :
  (∀ first mid last,
     period_performance (first :: mid ++ [last])
     = Ok (((last - first) / first) * of_Z 100)%F) ∧
  (∃ r, period_performance [Fin 50; Fin 55; Fin 60] = Ok (Fin r)
        ∧ (r == 20)%Q) ∧
  (∀ rows name ticker data,
     close_series ticker "1mo" = Ok data → 2 ≤ length data →
     ∃ first mid last,
       data.*2 = first :: mid ++ [last] ∧
       perf_step rows (name, ticker)
       = rows ++ [ {| perf_ticker := ticker;
                      performance := (((last - first) / first) * of_Z 100)%F |} ]) ∧
  (∀ rows name ticker data,
     close_series ticker "1mo" = Ok data → length data < 2 →
     perf_step rows (name, ticker) = rows) ∧
  (∀ watchlist ticker data,
     close_series ticker "1mo" = Ok data → length data < 2 →
     ticker ∉ (perf_ticker <$> perf_data watchlist)).
Proof.
  split_and!.
  - intros. apply period_performance_ends.
  - eexists. split; [reflexivity | reflexivity].
  - apply perf_step_two_points.
  - apply perf_step_short.
  - intros watchlist ticker data Hdata Hlen.
    rewrite perf_data_tickers. intros [Htwo _]%list_elem_of_filter.
    unfold Dashboard.has_two_points in Htwo. rewrite Hdata in Htwo.
    apply Nat.ltb_lt in Htwo. lia.
Qed.

(** C9.  The tickers of the performance entries are the watchlist's
    tickers whose one-month series has at least two points, in the
    watchlist's order: a subsequence of the watchlist. *)
Theorem performance_subsequence (watchlist : list (string * string)) :
  perf_ticker <$> perf_data watchlist
  = filter (λ t, has_two_points t = true) watchlist.*2 ∧
  (perf_ticker <$> perf_data watchlist) `sublist_of` watchlist.*2.
Proof.
  split; [apply perf_data_tickers|].
  rewrite perf_data_tickers. apply sublist_filter.
Qed.

(** C10, as the script computes it.  When the series is not empty and the
    close used as divisor is zero (the close before the latest one, or the
    only close), the day-change division raises nothing: its result is
    ((latest - 0) / 0) * 100, a number that is not finite (NaN or an
    infinity).  When the latest row label renders as a date, the iteration
    appends the populated row that holds the latest close and that result
    as its change, not the "N/A" row; when the label does not render, the
    bare except appends the "N/A" row. *)
Theorem zero_previous_close rows name ticker data stamp price (z : Q) :
  close_series ticker "1d" = Ok (data ++ [(stamp, price)]) →
  (z == 0)%Q →
  (data = [] ∧ price = Fin z)
  ∨ (∃ data' stamp', data = data' ++ [(stamp', Fin z)]) →
  let change := (((price - Fin z) / Fin z) * of_Z 100)%F in
  day_change (data.*2 ++ [price]) = Ok change ∧
  isfinite change = false ∧
  (∀ last_updated, strftime stamp = Ok last_updated →
     snapshot_step rows (name, ticker)
     = rows ++ [ {| Name := name; Ticker := ticker;
                    Price := Num price; Change := Num change;
                    Last_Updated := Str last_updated |} ]) ∧
  (∀ e, strftime stamp = Raise e →
     snapshot_step rows (name, ticker) = rows ++ [unavailable name ticker]).
Proof.
  intros Hdata Hz Hprev change.
  destruct (snapshot_step_populated rows name ticker data stamp price Hdata)
    as (change' & Hchange & Hrow).
  rewrite fmap_app in Hchange. cbn [fmap list_fmap snd] in Hchange.
  assert (day_change (data.*2 ++ [price]) = Ok change) as Hday.
  { destruct Hprev as [[-> ->] | (data' & stamp' & ->)].
    - apply day_change_one.
    - rewrite fmap_app, <- (assoc_L (++)). cbn [app fmap list_fmap snd].
      apply day_change_two. }
  assert (change' = change) as -> by congruence.
  split_and!.
  - exact Hday.
  - exact (pct_zero_divisor price z Hz).
  - intros last_updated Hlabel. by rewrite Hlabel in Hrow.
  - intros e Hlabel. by rewrite Hlabel in Hrow.
Qed.
End watchlist.

(** ** The day change *)

(** C4, against the specification's reading.  A single close of zero is
    divided by itself: the change is NaN, not 0. *)
Lemma day_change_single_zero_counterexample :
  day_change [Fin 0] = Ok NaN ∧
  ¬ ∃ r, day_change [Fin 0] = Ok (Fin r) ∧ (r == 0)%Q.
Proof.
  split; [reflexivity|].
  intros (r & Hr & _). vm_compute in Hr. discriminate.
Qed.

(** C4, as the script computes it.  With at least two closes the change is
    ((latest - previous) / previous) * 100; with exactly one close that
    close is both latest and previous, and the change is exactly 0 when the
    close is a non-zero number; closes 100, 110 give 10, the single close
    100 gives 0, closes 100, 90 give -10. *)
Theorem day_change_values :
  (∀ l prev latest,
     day_change (l ++ [prev; latest])
     = Ok (((latest - prev) / prev) * of_Z 100)%F) ∧
  (∀ p, day_change [p] = Ok (((p - p) / p) * of_Z 100)%F) ∧
  (∀ q, ¬ (q == 0)%Q → ∃ r, day_change [Fin q] = Ok (Fin r) ∧ (r == 0)%Q) ∧
  (∃ r, day_change [Fin 100; Fin 110] = Ok (Fin r) ∧ (r == 10)%Q) ∧
  (∃ r, day_change [Fin 100] = Ok (Fin r) ∧ (r == 0)%Q) ∧
  (∃ r, day_change [Fin 100; Fin 90] = Ok (Fin r) ∧ (r == -10)%Q).
Proof.
  split_and!.
  - apply day_change_two.
  - apply day_change_one.
  - intros q Hq. rewrite day_change_one.
    destruct (pct_same_nonzero q Hq) as (r & -> & Hr). by exists r.
  - eexists. split; reflexivity.
  - eexists. split; reflexivity.
  - eexists. split; reflexivity.
Qed.

Lemma day_change_values_witness :
  ¬ (7 == 0)%Q ∧ ∃ r, day_change [Fin 7] = Ok (Fin r) ∧ (r == 0)%Q.
Proof.
  assert (¬ (7 == 0)%Q) as H7 by discriminate.
  split; [exact H7|].
  destruct day_change_values as (_ & _ & Hone & _).
  exact (Hone 7%Q H7).
Defined.

(** ** The engine on all-null input *)

Lemma window_mean_all_null (w : nat) (win : values) :
  Forall (λ x, x = NaN) win → window_mean w win = NaN.
Proof.
  intros Hnull. unfold window_mean.
  match goal with
  | |- context [@filter _ _ _ ?P ?D win] =>
      assert (@filter _ _ _ P D win = []) as ->
  end.
  { induction Hnull as [|x l -> _ IH]; [done|].
    by rewrite filter_cons_False. }
  by destruct (w <=? length [])%nat.
Qed.

Lemma rolling_mean_all_null (w n : nat) :
  rolling_mean w (replicate n NaN) = replicate n NaN.
Proof.
  apply list_eq. intros i.
  destruct (decide (i < n)) as [Hi|Hi].
  - rewrite lookup_rolling_mean by (by rewrite length_replicate).
    rewrite lookup_replicate_2 by done. f_equal.
    apply window_mean_all_null. unfold window_at.
    apply Forall_take, Forall_drop, Forall_replicate. done.
  - rewrite lookup_rolling_mean_ge by (rewrite length_replicate; lia).
    symmetry. apply lookup_replicate_None. lia.
Qed.

Lemma delta_all_null (n : nat) : delta (replicate n NaN) = replicate n NaN.
Proof.
  unfold delta, diff, shift1. rewrite length_replicate.
  change (NaN :: replicate n NaN) with (replicate (S n) NaN).
  rewrite take_replicate, Nat.min_l by lia.
  by rewrite zip_with_replicate.
Qed.

Lemma gain_terms_all_null (n : nat) :
  gain_terms (replicate n NaN) = Fin <$> replicate n 0%Q.
Proof.
  unfold gain_terms, gt_scalar. rewrite where_test, delta_all_null.
  by rewrite !fmap_replicate.
Qed.

Lemma loss_terms_all_null (n : nat) :
  loss_terms (replicate n NaN) = Fin <$> replicate n 0%Q.
Proof.
  unfold loss_terms, lt_scalar, neg. rewrite where_test, delta_all_null.
  by rewrite !fmap_replicate.
Qed.

Lemma Qsum_zero l : Forall (λ q, (q == 0)%Q) l → (Qsum l == 0)%Q.
Proof.
  induction 1 as [|q l Hq _ IH]; [reflexivity|].
  change (q + Qsum l == 0)%Q. rewrite Hq, IH. reflexivity.
Qed.

Lemma Qmean_zero l : Forall (λ q, (q == 0)%Q) l → (Qmean l == 0)%Q.
Proof.
  intros Hl. unfold Qmean, Qdiv. rewrite (Qsum_zero l Hl).
  apply Qmult_0_l.
Qed.

Lemma rolling_mean_zeros (w n i : nat) :
  i < n →
  rolling_mean w (Fin <$> replicate n 0%Q) !! i = Some NaN
  ∨ ∃ q, rolling_mean w (Fin <$> replicate n 0%Q) !! i = Some (Fin q)
         ∧ (q == 0)%Q.
Proof.
  intros Hi.
  rewrite lookup_rolling_mean by (by rewrite length_fmap, length_replicate).
  rewrite window_at_Fin, window_mean_Fin.
  destruct (w <=? _)%nat; [|by left].
  destruct (take _ _) as [|q l] eqn:Hwin; [by left|].
  right. eexists. split; [done|].
  apply Qmean_zero. rewrite <- Hwin.
  apply Forall_take, Forall_drop, Forall_replicate. reflexivity.
Qed.

Lemma RSI_all_null (n : nat) : RSI (replicate n NaN) = replicate n NaN.
Proof.
  apply list_eq. intros i.
  destruct (decide (i < n)) as [Hi|Hi].
  - rewrite lookup_replicate_2 by done.
    destruct (lookup_lt_is_Some_2 (gain (replicate n NaN)) i) as [g Hg];
      [by rewrite length_gain, length_replicate|].
    destruct (lookup_lt_is_Some_2 (loss (replicate n NaN)) i) as [l Hl];
      [by rewrite length_loss, length_replicate|].
    rewrite (lookup_RSI _ _ _ _ Hg Hl). f_equal.
    unfold gain in Hg. rewrite gain_terms_all_null in Hg.
    unfold loss in Hl. rewrite loss_terms_all_null in Hl.
    destruct (rolling_mean_zeros 14 n i Hi) as [Hg'|(a & Hg' & Ha)];
      rewrite Hg' in Hg; injection Hg as <-; [done|].
    destruct (rolling_mean_zeros 14 n i Hi) as [Hl'|(b & Hl' & Hb)];
      rewrite Hl' in Hl; injection Hl as <-; [done|].
    by apply rsi_of_no_movement.
  - rewrite (lookup_ge_None_2 (RSI _))
      by (rewrite length_RSI, length_replicate; lia).
    symmetry. apply lookup_replicate_None. lia.
Qed.

(** ** The first tab *)

Section price_chart.
Context {Timestamp : Type}.
Variable get_stock_data : string → string → result (@DataFrame Timestamp).

#[local] Abbreviation price_chart := (Dashboard.price_chart get_stock_data).

Implicit Types df frame : @DataFrame Timestamp.

Lemma getitem_setitem_ne df (c c' : string) (vs : values) :
  c ≠ c' → getitem (setitem df c' vs) c = getitem df c.
Proof.
  intros Hne. unfold getitem, setitem. cbn [columns index].
  by rewrite lookup_insert_ne.
Qed.

(** The engine reads [Close] and nothing else. *)
Lemma indicators_unfold df :
  indicators df =
    match getitem df "Close" with
    | Ok close =>
        Ok (setitem (setitem (setitem df
              "SMA_20" (SMA 20 close.*2))
              "SMA_50" (SMA 50 close.*2))
              "RSI" (RSI close.*2))
    | Raise e => Raise e
    end.
Proof.
  unfold indicators.
  destruct (getitem df "Close") as [close|e] eqn:Hclose;
    cbn [mbind result_bind]; [|done].
  rewrite getitem_setitem_ne, Hclose by done. cbn [mbind result_bind].
  rewrite !getitem_setitem_ne, Hclose by done. done.
Qed.

Lemma getitem_same df1 df2 (c : string) :
  index df1 = index df2 → columns df1 !! c = columns df2 !! c →
  getitem df1 c = getitem df2 c.
Proof. unfold getitem. by intros -> ->. Qed.

Lemma indicators_again df r :
  indicators df = Ok r → indicators r = Ok r.
Proof.
  rewrite !indicators_unfold.
  destruct (getitem df "Close") as [close|e] eqn:Hclose; [|done].
  intros [= <-].
  rewrite !getitem_setitem_ne, Hclose by done. f_equal.
  unfold setitem. cbn [index columns]. f_equal.
  apply map_eq. intros c.
  destruct (decide (c = "RSI")) as [->|?];
    [by rewrite !lookup_insert_eq | rewrite !(lookup_insert_ne _ "RSI") by done].
  destruct (decide (c = "SMA_50")) as [->|?];
    [by rewrite !lookup_insert_eq | rewrite !(lookup_insert_ne _ "SMA_50") by done].
  destruct (decide (c = "SMA_20")) as [->|?];
    [by rewrite !lookup_insert_eq | rewrite !(lookup_insert_ne _ "SMA_20") by done].
  by rewrite ?lookup_insert_ne by done.
Qed.

(** C8.  The three indicator columns are functions of the close
    sequence alone: two frames with the same rows and the same [Close]
    column, whatever else they hold, get the same [SMA_20], [SMA_50] and
    [RSI] columns (or raise the same exception), and running the engine
    again on its own output returns that output unchanged. *)
Theorem indicators_pure df1 df2 :
  index df1 = index df2 →
  columns df1 !! "Close" = columns df2 !! "Close" →
  (∀ e, indicators df1 = Raise e → indicators df2 = Raise e) ∧
  (∀ r1, indicators df1 = Ok r1 →
     ∃ close r2,
       getitem df1 "Close" = Ok close ∧
       indicators df2 = Ok r2 ∧
       columns r1 !! "SMA_20" = Some (SMA 20 close.*2) ∧
       columns r2 !! "SMA_20" = Some (SMA 20 close.*2) ∧
       columns r1 !! "SMA_50" = Some (SMA 50 close.*2) ∧
       columns r2 !! "SMA_50" = Some (SMA 50 close.*2) ∧
       columns r1 !! "RSI" = Some (RSI close.*2) ∧
       columns r2 !! "RSI" = Some (RSI close.*2) ∧
       indicators r1 = Ok r1).
Proof.
  intros Hidx Hclose.
  pose proof (getitem_same df1 df2 "Close" Hidx Hclose) as Hget.
  split.
  - intros e. rewrite !indicators_unfold, <- Hget.
    by destruct (getitem df1 "Close").
  - intros r1 Hr1. pose proof (indicators_again _ _ Hr1) as Hagain.
    rewrite indicators_unfold in Hr1.
    rewrite (indicators_unfold df2), <- Hget.
    destruct (getitem df1 "Close") as [close|e]; [|done].
    injection Hr1 as <-. eexists close, _.
    split_and!; [done | done | .. | exact Hagain];
      unfold setitem; cbn [columns];
      repeat first [ by rewrite lookup_insert_eq
                   | rewrite lookup_insert_ne by done ].
Qed.

(** *** Empty and all-null histories *)

Lemma price_chart_empty ticker date_range period frame :
  range_map !! date_range = Some period →
  get_stock_data ticker period = Ok frame →
  df_empty frame = true →
  price_chart ticker date_range
  = WarningNotice ("No historical data available for " +:+ ticker
      +:+ ". The stock may be delisted or suspended.").
Proof.
  intros Hp Hf He. unfold Dashboard.price_chart.
  rewrite Hp. cbn [mbind result_bind]. rewrite Hf.
  cbn [mbind result_bind]. by rewrite He.
Qed.

Lemma scatter_column df (c name : string) (vs : values) :
  columns df !! c = Some vs → length vs = length (index df) →
  scatter df c name
  = Ok {| trace_name := name; trace_x := index df; trace_y := vs |}.
Proof.
  intros Hc Hlen. unfold scatter, getitem. rewrite Hc.
  cbn [mbind result_bind]. by rewrite snd_zip by lia.
Qed.

Lemma price_chart_all_null ticker date_range period frame :
  range_map !! date_range = Some period →
  get_stock_data ticker period = Ok frame →
  index frame ≠ [] →
  columns frame !! "Close" = Some (replicate (length (index frame)) NaN) →
  ∃ fig, price_chart ticker date_range = PlotlyChart fig ∧
         trace_y <$> fig
         = replicate 4 (replicate (length (index frame)) NaN).
Proof.
  intros Hp Hf Hidx Hclose. unfold Dashboard.price_chart.
  rewrite Hp. cbn [mbind result_bind]. rewrite Hf.
  cbn [mbind result_bind].
  assert (df_empty frame = false) as ->.
  { unfold df_empty. apply orb_false_intro; apply Nat.eqb_neq.
    - by destruct (index frame).
    - apply map_size_non_empty_iff. intros Hempty.
      by rewrite Hempty, lookup_empty in Hclose. }
  cbn [negb]. rewrite indicators_unfold.
  unfold getitem at 1. rewrite Hclose.
  rewrite snd_zip by (by rewrite length_replicate).
  unfold SMA. rewrite !rolling_mean_all_null, RSI_all_null.
  cbn [mbind result_bind].
  set (null := replicate (length (index frame)) NaN).
  assert (length null = length (index frame)) as Hlen
    by apply length_replicate.
  rewrite (scatter_column _ "Close" _ null); [| |done].
  2:{ unfold setitem. cbn [columns].
      by rewrite !lookup_insert_ne by done. }
  cbn [mbind result_bind].
  rewrite (scatter_column _ "SMA_20" _ null); [| |done].
  2:{ unfold setitem. cbn [columns].
      rewrite !lookup_insert_ne by done. by rewrite lookup_insert_eq. }
  cbn [mbind result_bind].
  rewrite (scatter_column _ "SMA_50" _ null); [| |done].
  2:{ unfold setitem. cbn [columns].
      rewrite !lookup_insert_ne by done. by rewrite lookup_insert_eq. }
  cbn [mbind result_bind].
  rewrite (scatter_column _ "RSI" _ null); [| |done].
  2:{ unfold setitem. cbn [columns]. by rewrite lookup_insert_eq. }
  cbn [mbind result_bind]. by eexists.
Qed.

(** C7, as the script handles it.  On an empty sequence the engine
    returns empty series, and for a frame without rows the caller does
    not run it: it shows the "no data" warning.  On an all-null sequence
    the engine returns series of the same length whose values are all
    undefined, and the caller, whose frame is not empty, draws the chart
    with those series. *)
Theorem no_data_handling :
  (∀ w, SMA w [] = []) ∧
  RSI [] = [] ∧
  (∀ ticker date_range period frame,
     range_map !! date_range = Some period →
     get_stock_data ticker period = Ok frame →
     df_empty frame = true →
     price_chart ticker date_range
     = WarningNotice ("No historical data available for " +:+ ticker
         +:+ ". The stock may be delisted or suspended.")) ∧
  (∀ n w, SMA w (replicate n NaN) = replicate n NaN) ∧
  (∀ n, RSI (replicate n NaN) = replicate n NaN) ∧
  (∀ ticker date_range period frame,
     range_map !! date_range = Some period →
     get_stock_data ticker period = Ok frame →
     index frame ≠ [] →
     columns frame !! "Close" = Some (replicate (length (index frame)) NaN) →
     ∃ fig, price_chart ticker date_range = PlotlyChart fig ∧
            trace_y <$> fig
            = replicate 4 (replicate (length (index frame)) NaN)).
Proof.
  split_and!.
  - done.
  - done.
  - apply price_chart_empty.
  - intros n w. apply rolling_mean_all_null.
  - apply RSI_all_null.
  - apply price_chart_all_null.
Qed.
End price_chart.

(** ** The sample provider at work *)

(** C7, against the specification's reading.  A history of one row whose
    close is missing is not an empty frame: the caller draws the chart,
    with four series of one undefined value each, and shows no notice. *)
Lemma all_null_chart_counterexample :
  sample_provider "NULL" "1y" = Ok (sample_frame [NaN]) ∧
  (∃ fig, price_chart sample_provider "NULL" "1 Year" = PlotlyChart fig
          ∧ trace_y <$> fig = [[NaN]; [NaN]; [NaN]; [NaN]]) ∧
  ¬ ∃ msg, price_chart sample_provider "NULL" "1 Year" = WarningNotice msg.
Proof.
  assert (∃ fig, price_chart sample_provider "NULL" "1 Year" = PlotlyChart fig
                 ∧ trace_y <$> fig = [[NaN]; [NaN]; [NaN]; [NaN]]) as Hfig.
  { apply (price_chart_all_null sample_provider "NULL" "1 Year" "1y"
             (sample_frame [NaN])); done. }
  split_and!; [done | done |].
  destruct Hfig as (fig & Hfig & _). intros [msg Hmsg]. congruence.
Qed.

Lemma no_data_handling_witness :
  price_chart sample_provider "NONE" "1 Year"
  = WarningNotice
      "No historical data available for NONE. The stock may be delisted or suspended." ∧
  ∃ fig, price_chart sample_provider "NULL" "1 Year" = PlotlyChart fig.
Proof.
  destruct (no_data_handling sample_provider) as (_ & _ & Hempty & _ & _ & Hnull).
  split.
  - apply (Hempty "NONE" "1 Year" "1y" (sample_frame [])); reflexivity.
  - destruct (Hnull "NULL" "1 Year" "1y" (sample_frame [NaN])) as (fig & Hfig & _);
      [reflexivity | reflexivity | discriminate | reflexivity |].
    by exists fig.
Defined.

Lemma indicators_pure_witness :
  ∃ r1 r2,
    indicators (sample_frame [Fin 1; Fin 2]) = Ok r1 ∧
    indicators (setitem (sample_frame [Fin 1; Fin 2]) "RSI" [Fin 7]) = Ok r2 ∧
    columns r1 !! "RSI" = columns r2 !! "RSI".
Proof.
  destruct (indicators_pure (sample_frame [Fin 1; Fin 2])
              (setitem (sample_frame [Fin 1; Fin 2]) "RSI" [Fin 7])
              eq_refl eq_refl) as [_ Hok].
  destruct (Hok _ eq_refl) as (close & r2 & _ & H2 & _ & _ & _ & _ & Ha & Hb & _).
  eexists _, r2. split_and!; [reflexivity | exact H2 |].
  by rewrite Ha, Hb.
Defined.

Lemma watchlist_rows_witness :
  length (portfolio_data sample_strftime sample_provider sample_watchlist) = 3 ∧
  portfolio_data sample_strftime sample_provider sample_watchlist !! 1
  = Some (unavailable "Second" "BBB") ∧
  portfolio_data sample_strftime sample_provider
    [("First", "AAA"); ("Third", "CCC")]
  = delete 1 (portfolio_data sample_strftime sample_provider sample_watchlist).
Proof.
  destruct (watchlist_rows sample_strftime sample_provider sample_watchlist)
    as (Hlen & _ & Hna & Hdel).
  split_and!.
  - exact Hlen.
  - apply (Hna 1 "Second" "BBB"); [reflexivity|].
    left. by exists FetchError.
  - apply (Hdel [("First", "AAA")] [("Third", "CCC")] ("Second", "BBB")).
    reflexivity.
Defined.

Lemma period_performance_entries_witness :
  perf_step sample_provider [] ("Zero", "ZERO") = [] ∧
  ("ZERO" ∉ (perf_ticker <$> perf_data sample_provider [("Zero", "ZERO")])) ∧
  (∃ first last : float,
    perf_step sample_provider [] ("Third", "CCC")
    = [ {| perf_ticker := "CCC";
           performance := (((last - first) / first) * of_Z 100)%F |} ]).
Proof.
  destruct (period_performance_entries sample_provider)
    as (_ & _ & Htwo & Hshort & Hnone).
  split_and!.
  - apply (Hshort [] "Zero" "ZERO" [("2024-01-02", Fin 0)]);
      [reflexivity | simpl; lia].
  - apply (Hnone _ "ZERO" [("2024-01-02", Fin 0)]);
      [reflexivity | simpl; lia].
  - destruct (Htwo [] "Third" "CCC"
                [("2024-01-02", Fin 50); ("2024-01-03", Fin 55);
                 ("2024-01-04", Fin 60)])
      as (first & mid & last & _ & Hrow); [reflexivity | simpl; lia |].
    by exists first, last.
Defined.

(** C10, against the specification's reading.  A one-day series of a
    single close of zero whose row label is no date: the fetch succeeds, the
    series is not empty, the divisor is zero and the division gives NaN
    without raising, yet the label does not render, and the row the
    iteration appends is the "N/A" row. *)
Lemma zero_close_label_counterexample :
  Dashboard.close_series sample_provider "NAT" "1d" = Ok [("NaT", Fin 0)] ∧
  day_change [Fin 0] = Ok NaN ∧
  sample_strftime "NaT" = Raise ValueError ∧
  snapshot_step sample_strftime sample_provider [] ("Nat", "NAT")
  = [unavailable "Nat" "NAT"] ∧
  ¬ ∃ price change last_updated,
      snapshot_step sample_strftime sample_provider [] ("Nat", "NAT")
      = [ {| Name := "Nat"; Ticker := "NAT";
             Price := Num price; Change := Num change;
             Last_Updated := Str last_updated |} ].
Proof.
  split_and!; try reflexivity.
  intros (price & change & last_updated & Hrow).
  vm_compute in Hrow. discriminate.
Qed.

Lemma zero_previous_close_witness :
  (day_change [Fin 0] = Ok NaN ∧
   snapshot_step sample_strftime sample_provider [] ("Zero", "ZERO")
   = [ {| Name := "Zero"; Ticker := "ZERO";
          Price := Num (Fin 0); Change := Num NaN;
          Last_Updated := Str "2024-01-02" |} ]) ∧
  (day_change [Fin 0; Fin 5] = Ok PInf ∧
   snapshot_step sample_strftime sample_provider [] ("Up", "FROMZERO")
   = [ {| Name := "Up"; Ticker := "FROMZERO";
          Price := Num (Fin 5); Change := Num PInf;
          Last_Updated := Str "2024-01-03" |} ]) ∧
  snapshot_step sample_strftime sample_provider [] ("Nat", "NAT")
  = [unavailable "Nat" "NAT"].
Proof.
  split; [|split].
  - destruct (zero_previous_close sample_strftime sample_provider
                [] "Zero" "ZERO" [] "2024-01-02" (Fin 0) 0%Q)
      as (Hday & _ & Hrow & _);
      [reflexivity | reflexivity | left; split; reflexivity |].
    split; [exact Hday | by apply Hrow].
  - destruct (zero_previous_close sample_strftime sample_provider
                [] "Up" "FROMZERO" [("2024-01-02", Fin 0)] "2024-01-03"
                (Fin 5) 0%Q)
      as (Hday & _ & Hrow & _);
      [reflexivity | reflexivity | right; by exists [], "2024-01-02" |].
    split; [exact Hday | by apply Hrow].
  - destruct (zero_previous_close sample_strftime sample_provider
                [] "Nat" "NAT" [] "NaT" (Fin 0) 0%Q)
      as (_ & _ & _ & Hraise);
      [reflexivity | reflexivity | left; split; reflexivity |].
    by apply (Hraise ValueError).
Defined.


(** * Further properties *)

(** ** Missing closes in the indicator engine *)

Lemma window_at_close_value (w i : nat) (close : list (option Q)) :
  window_at w i (close_value <$> close)
  = close_value <$> take (S i - (S i - w)) (drop (S i - w) close).
Proof. unfold window_at. by rewrite fmap_take, fmap_drop. Qed.

Lemma window_mean_short (w : nat) (win : values) :
  length win < w → window_mean w win = NaN.
Proof.
  intros Hlen. unfold window_mean.
  destruct (w <=? _)%nat eqn:E; [|done].
  apply Nat.leb_le in E.
  match type of E with
  | context [@filter _ _ _ ?P ?D win] =>
      pose proof (@length_filter _ P D win)
  end.
  lia.
Qed.

Lemma window_mean_gap (w : nat) (win : values) :
  length win ≤ w → NaN ∈ win → window_mean w win = NaN.
Proof.
  intros Hlen Hnan. unfold window_mean.
  destruct (w <=? _)%nat eqn:E; [|done].
  apply Nat.leb_le in E.
  assert (¬ isfinite NaN = true) as Hn by discriminate.
  match type of E with
  | context [@filter _ _ _ ?P ?D win] =>
      pose proof (@length_filter_lt _ P D win NaN Hnan Hn)
  end.
  lia.
Qed.

(** X1.  With closes that may be missing and a window w >= 1, the moving
    average at index i is the mean of the w closes ending at i when the
    window is full and none of them is missing, and is undefined when the
    window is not yet full or holds a missing close. *)
Theorem sma_missing_close (w : nat) (close : list (option Q)) (i : nat) :
  1 ≤ w → i < length close →
  (∀ qs, w ≤ S i → take w (drop (S i - w) close) = Some <$> qs →
     SMA w (close_value <$> close) !! i = Some (Fin (Qmean qs))) ∧
  (S i < w ∨ None ∈ take w (drop (S i - w) close) →
     SMA w (close_value <$> close) !! i = Some NaN).
Proof.
  intros Hw Hi. unfold SMA.
  rewrite lookup_rolling_mean by (by rewrite length_fmap).
  rewrite window_at_close_value.
  split.
  - intros qs Hfull Hqs.
    replace (S i - (S i - w)) with w by lia. rewrite Hqs.
    rewrite <- list_fmap_compose.
    change (close_value ∘ Some) with Fin.
    rewrite window_mean_Fin.
    assert (length qs = w) as Hlen.
    { rewrite <- (length_fmap Some qs), <- Hqs, length_take, length_drop. lia. }
    rewrite Hlen, Nat.leb_refl.
    destruct qs; [simpl in Hlen; lia | done].
  - intros [Hshort | Hgap]; f_equal.
    + apply window_mean_short.
      rewrite length_fmap, length_take, length_drop. lia.
    + destruct (decide (S i < w)) as [Hshort|Hfull].
      * apply window_mean_short.
        rewrite length_fmap, length_take, length_drop. lia.
      * replace (S i - (S i - w)) with w by lia.
        apply window_mean_gap.
        -- rewrite length_fmap, length_take. lia.
        -- change NaN with (close_value None). by apply list_elem_of_fmap_2.
Qed.

Lemma sma_missing_close_witness :
  SMA 2 (close_value <$> [Some 1%Q; None; Some 3%Q; Some 5%Q]) !! 3
  = Some (Fin (8 # 2)) ∧
  SMA 2 (close_value <$> [Some 1%Q; None; Some 3%Q; Some 5%Q]) !! 2
  = Some NaN.
Proof.
  destruct (sma_missing_close 2 [Some 1%Q; None; Some 3%Q; Some 5%Q] 3)
    as [Hfull _]; [lia | simpl; lia |].
  destruct (sma_missing_close 2 [Some 1%Q; None; Some 3%Q; Some 5%Q] 2)
    as [_ Hgap]; [lia | simpl; lia |].
  split.
  - apply (Hfull [3%Q; 5%Q]); [lia | reflexivity].
  - apply Hgap. right. simpl. apply list_elem_of_here.
Defined.

Lemma lookup_delta_S (xs : values) i a b :
  xs !! S i = Some a → xs !! i = Some b →
  delta xs !! S i = Some (a - b)%F.
Proof.
  intros Ha Hb. unfold delta, diff, shift1.
  rewrite lookup_zip_with, Ha. cbn [mbind option_bind].
  rewrite lookup_take_lt by (by apply lookup_lt_Some in Ha).
  rewrite lookup_cons, Hb. reflexivity.
Qed.

Lemma length_delta (xs : values) : length (delta xs) = length xs.
Proof.
  unfold delta, diff, shift1.
  rewrite length_zip_with, length_take. simpl. lia.
Qed.

Lemma gain_terms_lookup (xs : values) i d :
  delta xs !! i = Some d →
  gain_terms xs !! i = Some (if fgt d (of_Z 0) then d else of_Z 0).
Proof.
  intros Hd. unfold gain_terms, gt_scalar.
  by rewrite where_test, list_lookup_fmap, Hd.
Qed.

Lemma loss_terms_lookup (xs : values) i d :
  delta xs !! i = Some d →
  loss_terms xs !! i = Some (- (if flt d (of_Z 0) then d else of_Z 0))%F.
Proof.
  intros Hd. unfold loss_terms, lt_scalar, neg.
  by rewrite where_test, !list_lookup_fmap, Hd.
Qed.

Lemma delta_close_value (close : list (option Q)) i d :
  delta (close_value <$> close) !! i = Some d → d = NaN ∨ ∃ q, d = Fin q.
Proof.
  intros Hd.
  assert (i < length close) as Hi.
  { apply lookup_lt_Some in Hd. by rewrite length_delta, length_fmap in Hd. }
  destruct i as [|i].
  - left. revert Hd. destruct close as [|c t]; [done|].
    unfold delta, diff, shift1. cbn. intros [= <-]. by destruct c.
  - destruct (lookup_lt_is_Some_2 close (S i) Hi) as [a Ha].
    destruct (lookup_lt_is_Some_2 close i ltac:(lia)) as [b Hb].
    rewrite (lookup_delta_S _ i (close_value a) (close_value b)) in Hd
      by (by rewrite list_lookup_fmap, ?Ha, ?Hb).
    injection Hd as <-.
    destruct a, b; cbn; eauto.
Qed.

Lemma terms_close_value (close : list (option Q)) :
  ∃ gs ls,
    gain_terms (close_value <$> close) = Fin <$> gs ∧
    loss_terms (close_value <$> close) = Fin <$> ls ∧
    length gs = length close ∧ length ls = length close.
Proof.
  set (xs := close_value <$> close).
  assert (∀ i, i < length close →
            ∃ g l, gain_terms xs !! i = Some (Fin g)
                   ∧ loss_terms xs !! i = Some (Fin l)) as Hterms.
  { intros i Hi.
    destruct (lookup_lt_is_Some_2 (delta xs) i) as [d Hd];
      [by rewrite length_delta; unfold xs; rewrite length_fmap|].
    rewrite (gain_terms_lookup _ _ _ Hd), (loss_terms_lookup _ _ _ Hd).
    destruct (delta_close_value _ _ _ Hd) as [->|[q ->]]; cbn.
    - by eexists _, _.
    - destruct (inject_Z 0 ?= q)%Q, (q ?= inject_Z 0)%Q; by eexists _, _. }
  assert (∀ l : values, (∀ i, i < length l → ∃ q, l !! i = Some (Fin q)) →
            ∃ qs, l = Fin <$> qs ∧ length qs = length l) as Hfin.
  { induction l as [|x l IH]; intros Hl; [by exists []|].
    destruct (Hl 0) as [q Hq]; [simpl; lia|]. injection Hq as ->.
    destruct IH as (qs & -> & Hlen).
    { intros i Hi. apply (Hl (S i)). simpl. lia. }
    exists (q :: qs). split; [done | simpl; by rewrite Hlen]. }
  destruct (Hfin (gain_terms xs)) as (gs & Hgs & Hglen).
  { intros i Hi. destruct (Hterms i) as (g & _ & Hg & _); [|by exists g].
    revert Hi. unfold gain_terms, where_, gt_scalar.
    rewrite length_zip_with, length_fmap, length_delta.
    unfold xs. rewrite length_fmap. lia. }
  destruct (Hfin (loss_terms xs)) as (ls & Hls & Hllen).
  { intros i Hi. destruct (Hterms i) as (_ & l & _ & Hl); [|by exists l].
    revert Hi. unfold loss_terms, neg, where_, lt_scalar.
    rewrite length_fmap, length_zip_with, length_fmap, length_delta.
    unfold xs. rewrite length_fmap. lia. }
  exists gs, ls. split_and!; [done | done | |].
  - rewrite Hglen. unfold gain_terms, where_, gt_scalar.
    rewrite length_zip_with, length_fmap, length_delta.
    unfold xs. rewrite length_fmap. lia.
  - rewrite Hllen. unfold loss_terms, neg, where_, lt_scalar.
    rewrite length_fmap, length_zip_with, length_fmap, length_delta.
    unfold xs. rewrite length_fmap. lia.
Qed.

(** X2.  With closes that may be missing: the RSI is undefined at every
    index below 13; a difference that involves a missing close contributes
    0 to both the gains and the losses; so from index 13 on the averaged
    gain and loss are always numbers, and they are not negative. *)
Theorem rsi_missing_close (close : list (option Q)) :
  let xs := close_value <$> close in
  (∀ i, i < length close → i < 13 → RSI xs !! i = Some NaN) ∧
  (∀ i, delta xs !! i = Some NaN →
     gain_terms xs !! i = Some (Fin 0) ∧ loss_terms xs !! i = Some (Fin 0)) ∧
  (∀ i, i < length close → 13 ≤ i →
     ∃ g l, gain xs !! i = Some (Fin g) ∧ loss xs !! i = Some (Fin l)
            ∧ (0 <= g)%Q ∧ (0 <= l)%Q).
Proof.
  intros xs.
  destruct (terms_close_value close) as (gs & ls & Hgs & Hls & Hglen & Hllen).
  fold xs in Hgs, Hls.
  split_and!.
  - intros i Hi H13.
    assert (gain xs !! i = Some NaN) as Hg.
    { unfold gain. rewrite Hgs. apply rolling_mean_Fin_head; lia. }
    assert (loss xs !! i = Some NaN) as Hl.
    { unfold loss. rewrite Hls. apply rolling_mean_Fin_head; lia. }
    by rewrite (lookup_RSI _ _ _ _ Hg Hl).
  - intros i Hd.
    by rewrite (gain_terms_lookup _ _ _ Hd), (loss_terms_lookup _ _ _ Hd).
  - intros i Hi H13.
    assert (gain xs !! i = Some (Fin (Qmean (slice_ending_at 14 i gs)))) as Hg.
    { unfold gain. rewrite Hgs. apply rolling_mean_Fin_full; lia. }
    assert (loss xs !! i = Some (Fin (Qmean (slice_ending_at 14 i ls)))) as Hl.
    { unfold loss. rewrite Hls. apply rolling_mean_Fin_full; lia. }
    eexists _, _. split_and!; [done | done | |].
    + destruct (rolling_mean_nonneg 14 _ i _ (gain_terms_nonneg xs) Hg)
        as [?|Hn]; [done | exact Hn].
    + destruct (rolling_mean_nonneg 14 _ i _ (loss_terms_nonneg xs) Hl)
        as [?|Hn]; [done | exact Hn].
Qed.

Lemma rsi_missing_close_witness :
  RSI (close_value <$> closes_with_gap) !! 3 = Some NaN ∧
  ∃ g l, gain (close_value <$> closes_with_gap) !! 14 = Some (Fin g)
         ∧ loss (close_value <$> closes_with_gap) !! 14 = Some (Fin l)
         ∧ (0 <= g)%Q ∧ (0 <= l)%Q.
Proof.
  destruct (rsi_missing_close closes_with_gap) as (Hhead & _ & Hfull).
  split.
  - apply Hhead; simpl; lia.
  - apply Hfull; simpl; lia.
Defined.

(** ** The frame and the chart *)

Section frames.
Context {Timestamp : Type}.
Variable get_stock_data : string → string → result (@DataFrame Timestamp).

#[local] Abbreviation price_chart := (Dashboard.price_chart get_stock_data).

Implicit Types df frame r : @DataFrame Timestamp.

Lemma length_SMA w (xs : values) : length (SMA w xs) = length xs.
Proof. apply length_rolling_mean. Qed.

(** X3.  The engine fails only for want of a [Close] column, with the
    KeyError of that lookup.  When it succeeds the rows are the same, every
    column other than [SMA_20], [SMA_50] and [RSI] is left as it was (the
    closes among them), and if every column had one value per row, every
    column of the result has. *)
Theorem indicators_frame df :
  (∀ e, indicators df = Raise e ↔
        e = KeyError "Close" ∧ columns df !! "Close" = None) ∧
  (∀ r, indicators df = Ok r →
     index r = index df ∧
     (∀ c : string, c ≠ "SMA_20" → c ≠ "SMA_50" → c ≠ "RSI" →
        columns r !! c = columns df !! c) ∧
     (well_formed df → well_formed r)).
Proof.
  split.
  - intros e. rewrite indicators_unfold. unfold getitem.
    destruct (columns df !! "Close") as [vs|]; [|by split; [intros [= <-] | intros [-> _]]].
    split; [done | by intros [_ ?]].
  - intros r. rewrite indicators_unfold. unfold getitem.
    destruct (columns df !! "Close") as [vs|] eqn:Hclose; [|done].
    intros [= <-]. split_and!.
    + done.
    + intros c ? ? ?. unfold setitem. cbn [columns].
      by rewrite !lookup_insert_ne by done.
    + intros Hwf c col. unfold setitem. cbn [columns index].
      assert (length (zip (index df) vs).*2 = length (index df)) as Hlen.
      { rewrite snd_zip by (by rewrite (Hwf _ _ Hclose)). by apply Hwf in Hclose. }
      destruct (decide (c = "RSI")) as [->|?].
      { rewrite lookup_insert_eq. intros [= <-]. by rewrite length_RSI. }
      rewrite lookup_insert_ne by done.
      destruct (decide (c = "SMA_50")) as [->|?].
      { rewrite lookup_insert_eq. intros [= <-]. by rewrite length_SMA. }
      rewrite lookup_insert_ne by done.
      destruct (decide (c = "SMA_20")) as [->|?].
      { rewrite lookup_insert_eq. intros [= <-]. by rewrite length_SMA. }
      rewrite lookup_insert_ne by done. apply Hwf.
Qed.

(** X4.  The chart section shows the one error notice, and nothing else,
    when the date range has no period, when the fetch raises, and when a
    frame that has rows lacks the [Close] column. *)
Theorem price_chart_failures (ticker date_range : string) :
  (range_map !! date_range = None →
     price_chart ticker date_range
     = ErrorNotice "Failed to fetch historical data. Please try again later.") ∧
  (∀ period e,
     range_map !! date_range = Some period →
     get_stock_data ticker period = Raise e →
     price_chart ticker date_range
     = ErrorNotice "Failed to fetch historical data. Please try again later.") ∧
  (∀ period frame,
     range_map !! date_range = Some period →
     get_stock_data ticker period = Ok frame →
     df_empty frame = false →
     columns frame !! "Close" = None →
     price_chart ticker date_range
     = ErrorNotice "Failed to fetch historical data. Please try again later.").
Proof.
  unfold Dashboard.price_chart. split_and!.
  - by intros ->.
  - intros period e -> Hraise. cbn [mbind result_bind]. by rewrite Hraise.
  - intros period frame -> Hok Hne Hclose. cbn [mbind result_bind].
    rewrite Hok. cbn [mbind result_bind]. rewrite Hne. cbn [negb].
    rewrite indicators_unfold. unfold getitem. by rewrite Hclose.
Qed.

(** X5.  For a frame that has rows and a [Close] column with one value per
    row, the chart section draws exactly four lines over the frame's rows,
    in this order: the closes, the 20-day and the 50-day moving average of
    the closes, and their RSI. *)
Theorem price_chart_traces (ticker date_range period : string) frame (close : values) :
  range_map !! date_range = Some period →
  get_stock_data ticker period = Ok frame →
  index frame ≠ [] →
  columns frame !! "Close" = Some close →
  length close = length (index frame) →
  price_chart ticker date_range
  = PlotlyChart
      [ {| trace_name := "Close Price"; trace_x := index frame;
           trace_y := close |};
        {| trace_name := "20-Day SMA"; trace_x := index frame;
           trace_y := SMA 20 close |};
        {| trace_name := "50-Day SMA"; trace_x := index frame;
           trace_y := SMA 50 close |};
        {| trace_name := "RSI"; trace_x := index frame;
           trace_y := RSI close |} ].
Proof.
  intros Hp Hf Hidx Hclose Hlen. unfold Dashboard.price_chart.
  rewrite Hp. cbn [mbind result_bind]. rewrite Hf.
  cbn [mbind result_bind].
  assert (df_empty frame = false) as ->.
  { unfold df_empty. apply orb_false_intro; apply Nat.eqb_neq.
    - by destruct (index frame).
    - apply map_size_non_empty_iff. intros Hempty.
      by rewrite Hempty, lookup_empty in Hclose. }
  cbn [negb]. rewrite indicators_unfold.
  unfold getitem at 1. rewrite Hclose.
  rewrite snd_zip by lia.
  cbn [mbind result_bind].
  rewrite (scatter_column _ "Close" _ close); [| |done].
  2:{ unfold setitem. cbn [columns].
      by rewrite !lookup_insert_ne by done. }
  cbn [mbind result_bind].
  rewrite (scatter_column _ "SMA_20" _ (SMA 20 close));
    [| |by rewrite length_SMA].
  2:{ unfold setitem. cbn [columns].
      rewrite !lookup_insert_ne by done. by rewrite lookup_insert_eq. }
  cbn [mbind result_bind].
  rewrite (scatter_column _ "SMA_50" _ (SMA 50 close));
    [| |by rewrite length_SMA].
  2:{ unfold setitem. cbn [columns].
      rewrite !lookup_insert_ne by done. by rewrite lookup_insert_eq. }
  cbn [mbind result_bind].
  rewrite (scatter_column _ "RSI" _ (RSI close));
    [| |by rewrite length_RSI].
  2:{ unfold setitem. cbn [columns]. by rewrite lookup_insert_eq. }
  reflexivity.
Qed.
End frames.

Lemma indicators_frame_witness :
  (∃ r, indicators (sample_frame [Fin 1; Fin 2]) = Ok r
        ∧ index r = index (sample_frame [Fin 1; Fin 2])
        ∧ columns r !! "Close" = Some [Fin 1; Fin 2]) ∧
  indicators {| index := ["2024-01-02"]; columns := ∅ |}
  = Raise (KeyError "Close").
Proof.
  split.
  - destruct (indicators_frame (sample_frame [Fin 1; Fin 2])) as [_ Hok].
    destruct (Hok _ eq_refl) as (Hidx & Hcols & _).
    eexists. split_and!; [reflexivity | exact Hidx |].
    by rewrite Hcols.
  - destruct (indicators_frame {| index := ["2024-01-02"]; columns := ∅ |})
      as [Hraise _].
    apply Hraise. by split.
Defined.

Lemma price_chart_failures_witness :
  price_chart sample_provider "BBB" "1 Year"
  = ErrorNotice "Failed to fetch historical data. Please try again later." ∧
  price_chart sample_provider "AAA" "1 Day"
  = ErrorNotice "Failed to fetch historical data. Please try again later.".
Proof.
  split.
  - destruct (price_chart_failures sample_provider "BBB" "1 Year")
      as (_ & Hfetch & _).
    apply (Hfetch "1y" FetchError); reflexivity.
  - destruct (price_chart_failures sample_provider "AAA" "1 Day")
      as (Hrange & _).
    apply Hrange. reflexivity.
Defined.

Lemma price_chart_traces_witness :
  ∃ fig, price_chart sample_provider "AAA" "1 Year" = PlotlyChart fig
         ∧ trace_name <$> fig
           = ["Close Price"; "20-Day SMA"; "50-Day SMA"; "RSI"].
Proof.
  eexists. split.
  - apply (price_chart_traces sample_provider "AAA" "1 Year" "1y"
             (sample_frame [Fin 100; Fin 110]) [Fin 100; Fin 110]);
      [reflexivity | reflexivity | discriminate | reflexivity | reflexivity].
  - reflexivity.
Defined.

(** ** More on the portfolio tab *)

Lemma pct_direction (prev latest : Q) :
  (0 < prev)%Q →
  ∃ r, (((Fin latest - Fin prev) / Fin prev) * of_Z 100)%F = Fin r ∧
       ((0 < r)%Q ↔ (prev < latest)%Q) ∧
       ((r == 0)%Q ↔ (latest == prev)%Q) ∧
       ((r < 0)%Q ↔ (latest < prev)%Q).
Proof.
  intros Hprev. unfold of_Z. cbn [fsub fopp fadd fdiv].
  rewrite (proj1 (Qgt_alt prev 0) Hprev). cbn [fmul].
  eexists. split; [reflexivity|].
  change (inject_Z 100) with 100%Q.
  set (d := (latest + - prev)%Q).
  assert (0 < 100 / prev)%Q as Hk.
  { apply Qlt_shift_div_l; [done | lra]. }
  assert (d / prev * 100 == d * (100 / prev))%Q as -> by (field; lra).
  split_and!; split; intros H; unfold d in *; nra.
Qed.

(** X7.  When the previous close is a positive number, the day change is a
    number with the sign of the move: positive exactly when the latest
    close is higher, zero exactly when it is the same, negative exactly
    when it is lower. *)
Theorem day_change_direction (l : values) (prev latest : Q) :
  (0 < prev)%Q →
  ∃ r, day_change (l ++ [Fin prev; Fin latest]) = Ok (Fin r) ∧
       ((0 < r)%Q ↔ (prev < latest)%Q) ∧
       ((r == 0)%Q ↔ (latest == prev)%Q) ∧
       ((r < 0)%Q ↔ (latest < prev)%Q).
Proof.
  intros Hprev. rewrite day_change_two.
  destruct (pct_direction prev latest Hprev) as (r & -> & Hr).
  by exists r.
Qed.

Lemma day_change_direction_witness :
  ∃ r, day_change [Fin 100; Fin 90] = Ok (Fin r) ∧ ((r < 0)%Q ↔ (90 < 100)%Q).
Proof.
  destruct (day_change_direction [] 100 90) as (r & Hr & _ & _ & Hneg);
    [reflexivity|].
  by exists r.
Defined.

(** X8.  Both percentages read two points only: the period performance
    depends on the first and the last close and on nothing in between, the
    day change on the last two closes and on nothing before them; on a
    series of two closes they are the same number. *)
Theorem changes_use_end_points :
  (∀ (first last : float) (mid : values),
     period_performance (first :: mid ++ [last])
     = period_performance [first; last]) ∧
  (∀ (l : values) (prev latest : float),
     day_change (l ++ [prev; latest]) = day_change [prev; latest]) ∧
  (∀ a b : float, day_change [a; b] = period_performance [a; b]).
Proof.
  split_and!.
  - intros first last mid. rewrite period_performance_ends.
    symmetry. apply (period_performance_ends first last []).
  - intros l prev latest. rewrite day_change_two.
    symmetry. apply (day_change_two [] prev latest).
  - intros a b.
    pose proof (day_change_two [] a b) as Hd.
    pose proof (period_performance_ends a b []) as Hp.
    cbn [app] in Hd, Hp. by rewrite Hd, Hp.
Qed.

Section aggregation.
Context {Timestamp : Type}.
Variable strftime : Timestamp → result string.
Variable get_stock_data : string → string → result (@DataFrame Timestamp).

#[local] Abbreviation close_series := (Dashboard.close_series get_stock_data).
#[local] Abbreviation portfolio_data :=
  (Dashboard.portfolio_data strftime get_stock_data).
#[local] Abbreviation perf_step := (Dashboard.perf_step get_stock_data).
#[local] Abbreviation perf_data := (Dashboard.perf_data get_stock_data).
#[local] Abbreviation has_two_points :=
  (Dashboard.has_two_points get_stock_data).

Lemma portfolio_data_lookup (watchlist : list (string * string)) i item :
  watchlist !! i = Some item →
  ∃ s, Dashboard.snapshot_step strftime get_stock_data [] item = [s]
       ∧ portfolio_data watchlist !! i = Some s.
Proof.
  intros Hi. destruct item as [name ticker].
  destruct (snapshot_step_row strftime get_stock_data [] name ticker)
    as (s & Hs & _).
  exists s. split; [done|].
  apply list_elem_of_split_length in Hi as (l1 & l2 & -> & ->).
  rewrite portfolio_data_app, portfolio_data_cons, Hs.
  rewrite <- (length_portfolio_data strftime get_stock_data l1). cbn [app].
  by rewrite list_lookup_middle.
Qed.

(** X6.  A ticker whose one-day series is not empty gets, at its place in
    the table, a populated row when the latest row label renders as a date:
    the price is the latest close, the change is the day change of the
    closes, the date is the rendered label.  When the label does not
    render, the row at that place is the "N/A" row. *)
Theorem populated_rows (watchlist : list (string * string)) i name ticker
    data stamp price :
  watchlist !! i = Some (name, ticker) →
  close_series ticker "1d" = Ok (data ++ [(stamp, price)]) →
  ∃ change,
    day_change (data.*2 ++ [price]) = Ok change ∧
    (∀ last_updated, strftime stamp = Ok last_updated →
       portfolio_data watchlist !! i
       = Some {| Name := name; Ticker := ticker;
                 Price := Num price; Change := Num change;
                 Last_Updated := Str last_updated |}) ∧
    (∀ e, strftime stamp = Raise e →
       portfolio_data watchlist !! i = Some (unavailable name ticker)).
Proof.
  intros Hi Hdata.
  destruct (snapshot_step_populated strftime get_stock_data
              [] name ticker data stamp price Hdata) as (change & Hc & Hrow).
  rewrite fmap_app in Hc. cbn [fmap list_fmap snd] in Hc.
  destruct (portfolio_data_lookup watchlist i _ Hi) as (s & Hs & Hlookup).
  rewrite Hs in Hrow.
  exists change. split; [done|]. split.
  - intros last_updated Hlabel. rewrite Hlabel in Hrow.
    injection Hrow as ->. exact Hlookup.
  - intros e Hlabel. rewrite Hlabel in Hrow.
    injection Hrow as ->. exact Hlookup.
Qed.

Lemma perf_step_acc rows item :
  perf_step rows item = rows ++ perf_step [] item.
Proof.
  destruct item as [name ticker].
  unfold Dashboard.perf_step, perf_try.
  destruct (close_series ticker "1mo") as [data|e];
    cbn [mbind result_bind]; [|by rewrite app_nil_r].
  destruct (negb (s_empty data) && (1 <? length data)%nat);
    [|by rewrite app_nil_r].
  destruct (period_performance data.*2); cbn [mbind result_bind];
    [done | by rewrite app_nil_r].
Qed.

Lemma perf_data_acc rows watchlist :
  foldl perf_step rows watchlist = rows ++ perf_data watchlist.
Proof.
  unfold Dashboard.perf_data.
  revert rows. induction watchlist as [|item wl IH]; intros rows.
  - by rewrite app_nil_r.
  - cbn [foldl].
    rewrite (IH (perf_step rows item)), (IH (perf_step [] item)).
    by rewrite (perf_step_acc rows), (assoc_L (++)).
Qed.

(** X9.  Both loops treat every watchlist entry on its own: the table of
    two watchlists put end to end is the two tables put end to end, and so
    is the performance list. *)
Theorem loops_split (l1 l2 : list (string * string)) :
  portfolio_data (l1 ++ l2) = portfolio_data l1 ++ portfolio_data l2 ∧
  perf_data (l1 ++ l2) = perf_data l1 ++ perf_data l2.
Proof.
  split; [apply portfolio_data_app|].
  unfold Dashboard.perf_data at 1. rewrite foldl_app.
  apply perf_data_acc.
Qed.

End aggregation.

(** X10.  In the table the change of an unavailable row gets no colour; a
    numeric change is red when it is below zero and green otherwise, and
    NaN, which is not below zero, is green.  The bars are green when the
    value is at least zero and red otherwise, so NaN is red: table and
    chart agree on every number and differ on NaN only. *)
Theorem change_colours :
  (∀ name ticker, color_change (Change (unavailable name ticker)) = "") ∧
  (∀ q, (q < 0)%Q → color_change (Num (Fin q)) = "color: red"
                    ∧ bar_color (Fin q) = "red") ∧
  (∀ q, (0 <= q)%Q → color_change (Num (Fin q)) = "color: green"
                     ∧ bar_color (Fin q) = "green") ∧
  (color_change (Num NaN) = "color: green" ∧ bar_color NaN = "red") ∧
  (∀ x, x ≠ NaN ↔
        (color_change (Num x) = "color: red" ↔ bar_color x = "red")).
Proof.
  split_and!.
  - done.
  - intros q Hq. unfold color_change, bar_color, fge, flt, of_Z.
    change (inject_Z 0) with 0%Q.
    by rewrite (proj1 (Qlt_alt q 0) Hq).
  - intros q Hq. unfold color_change, bar_color, fge, flt, of_Z.
    change (inject_Z 0) with 0%Q.
    destruct (Qcompare_spec q 0) as [H|H|H]; [done | lra | done].
  - done.
  - done.
  - intros x. split.
    + intros Hx. unfold color_change, bar_color, fge.
      destruct x as [q| | |]; [| done | done | done].
      by destruct (flt (Fin q) (of_Z 0)).
    + intros Hiff ->. destruct Hiff as [_ Hred].
      specialize (Hred eq_refl). discriminate.
Qed.

Lemma change_colours_witness :
  color_change (Num (Fin (-3))) = "color: red" ∧ bar_color (Fin (-3)) = "red".
Proof.
  destruct change_colours as (_ & Hneg & _).
  apply Hneg. reflexivity.
Defined.

Lemma populated_rows_witness :
  (∃ change,
     portfolio_data sample_strftime sample_provider sample_watchlist !! 0
     = Some {| Name := "First"; Ticker := "AAA";
               Price := Num (Fin 110); Change := Num change;
               Last_Updated := Str "2024-01-03" |}) ∧
  portfolio_data sample_strftime sample_provider [("Nat", "NAT")] !! 0
  = Some (unavailable "Nat" "NAT").
Proof.
  split.
  - destruct (populated_rows sample_strftime sample_provider sample_watchlist
                0 "First" "AAA" [("2024-01-02", Fin 100)] "2024-01-03" (Fin 110))
      as (change & _ & Hrow & _); [reflexivity | reflexivity |].
    exists change. by apply Hrow.
  - destruct (populated_rows sample_strftime sample_provider [("Nat", "NAT")]
                0 "Nat" "NAT" [] "NaT" (Fin 0))
      as (change & _ & _ & Hraise); [reflexivity | reflexivity |].
    by apply (Hraise ValueError).
Defined.

(** ** The text panels *)

Lemma panel_bind_done {A B} (w : list Element) (a : A) (k : A → Panel B) :
  mkPanel w (Done a) ≫= k = mkPanel (w ++ written (k a)) (ended (k a)).
Proof. reflexivity. Qed.

Lemma panel_bind_thrown {A B} (w : list Element) (e : exc) (k : A → Panel B) :
  mkPanel w (Thrown e) ≫= k = mkPanel w (Thrown e).
Proof. reflexivity. Qed.

Lemma panel_eta {A} (p : Panel A) : mkPanel (written p) (ended p) = p.
Proof. by destruct p. Qed.

Lemma for_each_cons {A} (f : A → Panel unit) x l :
  for_each f (x :: l) = (f x ;; for_each f l).
Proof. reflexivity. Qed.

Lemma for_each_app {A} (f : A → Panel unit) l1 l2 :
  ended (for_each f l1) = Done tt →
  for_each f (l1 ++ l2)
  = mkPanel (written (for_each f l1) ++ written (for_each f l2))
            (ended (for_each f l2)).
Proof.
  induction l1 as [|x l1 IH]; intros Hdone.
  - cbn [app for_each foldr mret panel_ret written]. by rewrite panel_eta.
  - rewrite <- app_comm_cons, !for_each_cons in *.
    destruct (f x) as [w [[]|e]]; [|done].
    rewrite panel_bind_done in *. cbn [written ended] in *.
    rewrite (IH Hdone). cbn [written ended]. by rewrite (assoc_L (++)).
Qed.

Lemma try_except_ended (body : Panel unit) (el : exc → Element) :
  ended (try_except body (λ e, show (el e))) = Done tt.
Proof.
  unfold try_except. destruct body as [w [[]|e]]; reflexivity.
Qed.

Lemma for_each_metric_line (l : list (string * pyval)) :
  for_each metric_line l = mkPanel (omap metric_row l) (Done tt).
Proof.
  induction l as [|[metric value] l IH]; [reflexivity|].
  rewrite for_each_cons, IH. by destruct value.
Qed.

Section text_panels.
Variable get_company_info : string → outcome (gmap string pyval).
Variable get_company_news : string → outcome (list (gmap string pyval)).
Variable publish_time : pyval → outcome string.

#[local] Abbreviation company_profile := (Panels.company_profile get_company_info).
#[local] Abbreviation news_item := (Panels.news_item publish_time).
#[local] Abbreviation recent_news :=
  (Panels.recent_news get_company_news publish_time).
#[local] Abbreviation complete := (complete_item publish_time).
#[local] Abbreviation interrupted := (interrupted_item publish_time).

(** X12.  When the market capitalisation is absent or a number, the
    profile panel shows no error: the sector, industry and website, each
    with "N/A" in place of an absent entry, the market capitalisation (0
    when absent), then one line for each of the five metrics that has a
    value, in the fixed order, and the business summary or its
    placeholder. *)
Theorem profile_shown (ticker : string) (info : gmap string pyval) :
  get_company_info ticker = Done info →
  info !! "marketCap" = None
  ∨ (∃ z, info !! "marketCap" = Some (PyInt z))
  ∨ (∃ x, info !! "marketCap" = Some (PyFloat x)) →
  company_profile ticker
  = mkPanel
      ([ Subheader "Company Profile";
         Write [Lit "**Sector:** ";
                Field (dict_get info "sector" (PyStr "N/A")) ""];
         Write [Lit "**Industry:** ";
                Field (dict_get info "industry" (PyStr "N/A")) ""];
         Write [Lit "**Website:** ";
                Field (dict_get info "website" (PyStr "N/A")) ""];
         Write [Lit "**Market Cap:** $";
                Field (dict_get info "marketCap" (PyInt 0)) ","];
         Markdown "---";
         Subheader "Key Metrics" ]
       ++ omap metric_row (metrics info)
       ++ [ Markdown "---";
            Write [Lit "**Business Summary:**"];
            InfoBox [Field (dict_get info "longBusinessSummary"
                              (PyStr "No summary available.")) ""] ])
      (Done tt).
Proof.
  intros Hinfo Hcap. unfold Panels.company_profile.
  rewrite Hinfo. unfold py_format. cbn [String.eqb Ascii.eqb Bool.eqb].
  cbn [lift mbind panel_bind ended written show try_except app].
  rewrite for_each_metric_line.
  destruct Hcap as [H | [[z H] | [x H]]];
    unfold dict_get; rewrite H; reflexivity.
Qed.

(** X13.  When the provider fails the profile panel shows its heading
    and the error with the exception, nothing else.  When the market
    capitalisation is present but is [None] or a string, formatting it
    fails after three lines were written: the panel shows the sector, the
    industry and the website, then the error; the metrics and the summary
    are not shown. *)
Theorem profile_errors (ticker : string) :
  (∀ e, get_company_info ticker = Thrown e →
     company_profile ticker
     = mkPanel
         [ Subheader "Company Profile";
           ErrorBox [Lit "Could not retrieve company information. Error: ";
                     Shown e] ]
         (Done tt)) ∧
  (∀ info e,
     get_company_info ticker = Done info →
     (info !! "marketCap" = Some PyNone ∧ e = TypeErr)
     ∨ (∃ s, info !! "marketCap" = Some (PyStr s) ∧ e = ValueErr) →
     company_profile ticker
     = mkPanel
         [ Subheader "Company Profile";
           Write [Lit "**Sector:** ";
                  Field (dict_get info "sector" (PyStr "N/A")) ""];
           Write [Lit "**Industry:** ";
                  Field (dict_get info "industry" (PyStr "N/A")) ""];
           Write [Lit "**Website:** ";
                  Field (dict_get info "website" (PyStr "N/A")) ""];
           ErrorBox [Lit "Could not retrieve company information. Error: ";
                     Shown e] ]
         (Done tt)).
Proof.
  unfold Panels.company_profile. split.
  - by intros e ->.
  - intros info e -> Hcap.
    unfold py_format. cbn [String.eqb Ascii.eqb Bool.eqb].
    cbn [lift mbind panel_bind ended written show try_except app].
    destruct Hcap as [[H ->] | (s & H & ->)];
      unfold dict_get; rewrite H; reflexivity.
Qed.

Lemma news_item_complete (item : gmap string pyval) (el : Element) :
  complete item = Some el → news_item item = mkPanel [el] (Done tt).
Proof.
  unfold complete_item, Panels.news_item, dict_item, expander.
  destruct (item !! "title") as [[|title| |]|];
    destruct (item !! "publisher") as [publisher|];
    destruct (item !! "link") as [link|];
    destruct (item !! "providerPublishTime") as [t|];
    try destruct (publish_time t) as [published|e];
    cbn [mbind option_bind]; intros Hc; try done;
    by injection Hc as <-.
Qed.

Lemma news_item_incomplete (item : gmap string pyval) :
  complete item = None →
  ∃ e, news_item item = mkPanel (interrupted item) (Thrown e).
Proof.
  unfold complete_item, interrupted_item, Panels.news_item, dict_item, expander.
  destruct (item !! "title") as [[|title| |]|];
    destruct (item !! "publisher") as [publisher|];
    destruct (item !! "link") as [link|];
    destruct (item !! "providerPublishTime") as [t|];
    try destruct (publish_time t) as [published|e];
    cbn [mbind option_bind]; intros Hc; try done;
    by eexists.
Qed.

Lemma length_interrupted (item : gmap string pyval) :
  length (interrupted item) ≤ 1.
Proof.
  unfold interrupted_item.
  destruct (item !! "title") as [[|title| |]|];
    destruct (item !! "publisher") as [publisher|];
    destruct (item !! "providerPublishTime") as [t|];
    try destruct (publish_time t) as [published|e];
    cbn; lia.
Qed.

Lemma news_item_written (item : gmap string pyval) :
  length (written (news_item item)) ≤ 1.
Proof.
  destruct (complete item) as [el|] eqn:Hc.
  - by rewrite (news_item_complete item el Hc).
  - destruct (news_item_incomplete item Hc) as (e & ->).
    apply length_interrupted.
Qed.

Lemma for_each_news_written (l : list (gmap string pyval)) :
  length (written (for_each news_item l)) ≤ length l.
Proof.
  induction l as [|item l IH]; [done|].
  rewrite for_each_cons.
  pose proof (news_item_written item) as Hitem.
  destruct (news_item item) as [w [[]|e]]; cbn [written ended] in *.
  - rewrite panel_bind_done. cbn [written length]. rewrite length_app. lia.
  - rewrite panel_bind_thrown. cbn [written length]. lia.
Qed.

Lemma for_each_news_complete (l : list (gmap string pyval)) (els : list Element) :
  mapM complete l = Some els →
  for_each news_item l = mkPanel els (Done tt).
Proof.
  rewrite mapM_Some. induction 1 as [|item el l els Hel _ IH]; [done|].
  by rewrite for_each_cons, (news_item_complete item el Hel), IH.
Qed.

(** X14.  When each of the first five news items is complete (its title
    is a string, it has a publisher and a link, and its publish time, if
    present, converts), the news panel shows one expander per such item, in
    order, and no warning. *)
Theorem news_shown (ticker : string) (news : list (gmap string pyval))
    (els : list Element) :
  get_company_news ticker = Done news →
  news ≠ [] →
  mapM complete (take 5 news) = Some els →
  recent_news ticker = mkPanel (Subheader "Recent News" :: els) (Done tt).
Proof.
  intros Hnews Hne Hels. unfold Panels.recent_news. rewrite Hnews.
  destruct news as [|item news']; [done|].
  cbn [lift mbind panel_bind ended written show app].
  by rewrite (for_each_news_complete _ _ Hels).
Qed.

(** X15.  When one of the first five news items is not complete, the
    panel shows the expanders of the items before it; of the item itself it
    shows nothing when the title is missing or is no string, and otherwise
    its expander with the lines written before the failure (none when the
    publisher is missing; the publisher when the publish time does not
    convert or the link is missing; the publish time too when it converts);
    then the warning that the feed is unavailable.  The items after it are
    not shown. *)
Theorem news_interrupted (ticker : string) (news good rest : list (gmap string pyval))
    (bad : gmap string pyval) (els : list Element) :
  get_company_news ticker = Done news →
  take 5 news = good ++ bad :: rest →
  mapM complete good = Some els →
  complete bad = None →
  recent_news ticker
  = mkPanel (Subheader "Recent News" :: els ++ interrupted bad
               ++ [WarningBox [Lit "News feed temporarily unavailable."]])
            (Done tt).
Proof.
  intros Hnews Htake Hels Hbad. unfold Panels.recent_news. rewrite Hnews.
  destruct (news_item_incomplete bad Hbad) as (e & Hitem).
  destruct news as [|item news']; [by destruct good|].
  cbn [lift mbind panel_bind ended written show app].
  rewrite Htake.
  rewrite for_each_app by (by rewrite (for_each_news_complete _ _ Hels)).
  rewrite (for_each_news_complete _ _ Hels), for_each_cons, Hitem.
  rewrite panel_bind_thrown. cbn [written ended try_except show].
  by rewrite <- (assoc_L (++)).
Qed.

(** X16.  When the provider fails, the news panel shows its heading and
    the warning; when it returns no news, the heading and the notice that
    there is no recent news. *)
Theorem news_unavailable (ticker : string) :
  (∀ e, get_company_news ticker = Thrown e →
     recent_news ticker
     = mkPanel [ Subheader "Recent News";
                 WarningBox [Lit "News feed temporarily unavailable."] ]
               (Done tt)) ∧
  (get_company_news ticker = Done [] →
     recent_news ticker
     = mkPanel [ Subheader "Recent News";
                 InfoBox [Lit "No recent news found for this company."] ]
               (Done tt)).
Proof.
  unfold Panels.recent_news. split.
  - by intros e ->.
  - by intros ->.
Qed.

Lemma recent_news_form (ticker : string) (item : gmap string pyval)
    (news : list (gmap string pyval)) :
  get_company_news ticker = Done (item :: news) →
  ∃ tail,
    recent_news ticker
    = mkPanel (Subheader "Recent News"
                 :: written (for_each news_item (take 5 (item :: news))) ++ tail)
              (Done tt) ∧
    (tail = [] ∨ tail = [WarningBox [Lit "News feed temporarily unavailable."]]).
Proof.
  intros Hnews. unfold Panels.recent_news. rewrite Hnews.
  cbn [lift mbind panel_bind ended written show app].
  destruct (for_each news_item (take 5 (item :: news))) as [w [[]|e]].
  - exists []. split; [|by left]. cbn [try_except ended written].
    by rewrite app_nil_r.
  - eexists. split; [|by right]. reflexivity.
Qed.

(** X17.  The news panel never shows more than five expanders, and it
    reads the first five items only: what it shows for a list of news is
    what it shows for the first five of them. *)
Theorem news_first_five (ticker ticker' : string)
    (news : list (gmap string pyval)) :
  get_company_news ticker = Done news →
  length (filter (λ el, is_expander el = true) (written (recent_news ticker))) ≤ 5 ∧
  (get_company_news ticker' = Done (take 5 news) →
     recent_news ticker' = recent_news ticker).
Proof.
  intros Hnews. split.
  - destruct news as [|item news'].
    + unfold Panels.recent_news. rewrite Hnews.
      cbn [lift mbind panel_bind ended written show try_except app].
      rewrite !filter_cons_False by (cbn; discriminate). cbn. lia.
    + destruct (recent_news_form ticker item news' Hnews)
        as (tail & -> & Htail).
      cbn [written]. rewrite filter_cons_False by (cbn; discriminate).
      rewrite filter_app.
      assert (filter (λ el, is_expander el = true) tail = []) as ->
        by (by destruct Htail as [-> | ->]).
      rewrite app_nil_r.
      etrans; [apply length_filter|].
      etrans; [apply for_each_news_written|].
      rewrite length_take. lia.
  - intros Hnews'. unfold Panels.recent_news. rewrite Hnews, Hnews'.
    destruct news as [|item news']; [done|].
    cbn [lift mbind panel_bind ended written show app take].
    by rewrite take_take.
Qed.

(** X18.  No exception leaves the profile panel or the news panel,
    whatever the provider returns or raises. *)
Theorem panels_contain_errors (ticker : string) :
  ended (company_profile ticker) = Done tt ∧
  ended (recent_news ticker) = Done tt.
Proof.
  unfold Panels.company_profile, Panels.recent_news.
  split; cbn [show mbind panel_bind ended written]; apply try_except_ended.
Qed.
End text_panels.

Lemma profile_shown_witness :
  ∃ w, company_profile sample_info "AAA" = mkPanel w (Done tt)
       ∧ length w = 11
       ∧ w !! 7 = Some (Write [Lit "**P/E Ratio:** "; Field (PyFloat (Fin 12)) ".2f"]).
Proof.
  eexists. split.
  - apply (profile_shown sample_info "AAA"
             {[ "sector" := PyStr "Technology"; "marketCap" := PyInt 1000;
                "trailingPE" := PyFloat (Fin 12) ]});
      [reflexivity | right; left; by exists 1000%Z].
  - split; reflexivity.
Defined.

Lemma profile_errors_witness :
  written (company_profile sample_info "BBB")
  = [ Subheader "Company Profile";
      ErrorBox [Lit "Could not retrieve company information. Error: ";
                Shown (ProviderErr "timeout")] ] ∧
  length (written (company_profile sample_info "CCC")) = 5.
Proof.
  destruct (profile_errors sample_info "BBB") as [Hfail _].
  destruct (profile_errors sample_info "CCC") as [_ Hcap].
  split.
  - by rewrite (Hfail (ProviderErr "timeout") eq_refl).
  - rewrite (Hcap {[ "marketCap" := PyNone ]} TypeErr eq_refl); [reflexivity|].
    left. by split.
Defined.

Lemma news_shown_witness :
  ∃ els, recent_news sample_news sample_publish_time "AAA"
         = mkPanel (Subheader "Recent News" :: els) (Done tt)
         ∧ length els = 5.
Proof.
  eexists. split.
  - apply (news_shown sample_news sample_publish_time "AAA"
             (sample_story <$> ["a"; "b"; "c"; "d"; "e"; "f"; "g"]%string));
      [reflexivity | discriminate | reflexivity].
  - reflexivity.
Defined.

Lemma news_interrupted_witness :
  (∃ first,
     recent_news sample_news sample_publish_time "CCC"
     = mkPanel [ Subheader "Recent News"; first;
                 WarningBox [Lit "News feed temporarily unavailable."] ]
               (Done tt)) ∧
  (∃ first,
     recent_news sample_news sample_publish_time "DDD"
     = mkPanel [ Subheader "Recent News"; first;
                 Expander "b" [Write [Lit "**Publisher:** "; Field (PyStr "Wire") ""]];
                 WarningBox [Lit "News feed temporarily unavailable."] ]
               (Done tt)) ∧
  recent_news sample_news sample_publish_time "EEE"
  = mkPanel [ Subheader "Recent News";
              WarningBox [Lit "News feed temporarily unavailable."] ]
            (Done tt).
Proof.
  split; [|split].
  - eexists.
    exact (news_interrupted sample_news sample_publish_time "CCC"
             [sample_story "a"; {[ "publisher" := PyStr "Wire" ]}; sample_story "c"]
             [sample_story "a"] [sample_story "c"]
             {[ "publisher" := PyStr "Wire" ]} _
             eq_refl eq_refl eq_refl eq_refl).
  - eexists.
    exact (news_interrupted sample_news sample_publish_time "DDD"
             [ sample_story "a";
               {[ "title" := PyStr "b"; "publisher" := PyStr "Wire" ]};
               sample_story "c" ]
             [sample_story "a"] [sample_story "c"]
             {[ "title" := PyStr "b"; "publisher" := PyStr "Wire" ]} _
             eq_refl eq_refl eq_refl eq_refl).
  - exact (news_interrupted sample_news sample_publish_time "EEE"
             [ <[ "title" := PyNone ]> (sample_story "a"); sample_story "c" ]
             [] [sample_story "c"]
             (<[ "title" := PyNone ]> (sample_story "a")) []
             eq_refl eq_refl eq_refl eq_refl).
Defined.

Lemma news_unavailable_witness :
  written (recent_news sample_news sample_publish_time "BBB")
  = [ Subheader "Recent News";
      WarningBox [Lit "News feed temporarily unavailable."] ] ∧
  written (recent_news sample_news sample_publish_time "NONE")
  = [ Subheader "Recent News";
      InfoBox [Lit "No recent news found for this company."] ].
Proof.
  destruct (news_unavailable sample_news sample_publish_time "BBB") as [Hfail _].
  destruct (news_unavailable sample_news sample_publish_time "NONE") as [_ Hnone].
  split.
  - by rewrite (Hfail (ProviderErr "timeout") eq_refl).
  - by rewrite (Hnone eq_refl).
Defined.

Lemma news_first_five_witness :
  length (filter (λ el, is_expander el = true)
            (written (recent_news sample_news sample_publish_time "AAA"))) ≤ 5.
Proof.
  destruct (news_first_five sample_news sample_publish_time "AAA" "AAA"
              (sample_story <$> ["a"; "b"; "c"; "d"; "e"; "f"; "g"]%string) eq_refl) as [Hcount _].
  exact Hcount.
Defined.

(** ** The sidebar *)

(** X19.  Every name the sidebar offers has a ticker, and every date range
    it offers has a period, so neither lookup of a sidebar choice raises a
    KeyError; the preselected date range, the fourth, is one year. *)
Theorem sidebar_choices :
  (∀ name : string, name ∈ tickers.*1 →
     ∃ t, selected_ticker name = Done t ∧ (name, t) ∈ tickers) ∧
  (∀ option : string, option ∈ date_range_options →
     is_Some (range_map !! option)) ∧
  (∃ option, date_range_options !! 3 = Some option
             ∧ range_map !! option = Some "1y"%string).
Proof.
  split_and!.
  - intros name Hin. cbn in Hin.
    repeat (apply elem_of_cons in Hin as [->|Hin];
            [eexists; split; [reflexivity | unfold tickers;
               repeat first [apply list_elem_of_here | apply list_elem_of_further]]|]).
    by apply elem_of_nil in Hin.
  - intros option Hin. unfold date_range_options in Hin.
    repeat (apply elem_of_cons in Hin as [->|Hin]; [by eexists|]).
    by apply elem_of_nil in Hin.
  - by eexists.
Qed.

Lemma sidebar_choices_witness :
  (∃ t, selected_ticker "Tesla" = Done t ∧ ("Tesla"%string, t) ∈ tickers) ∧
  is_Some (range_map !! "5 Years").
Proof.
  destruct sidebar_choices as (Hname & Hrange & _).
  split.
  - apply Hname. cbn.
    repeat first [apply list_elem_of_here | apply list_elem_of_further].
  - apply Hrange. unfold date_range_options.
    repeat first [apply list_elem_of_here | apply list_elem_of_further].
Defined.


(** ** The portfolio tab as a whole *)

Lemma styled_rows_cons (s : TickerSnapshot) (df : list TickerSnapshot) :
  styled_rows (s :: df)
  = (row ← styled_row s; rows ← styled_rows df; Done (row :: rows)).
Proof. reflexivity. Qed.

Lemma styled_row_populated (s : TickerSnapshot) (price change : float) :
  Price s = Num price → Change s = Num change →
  styled_row s
  = Done {| shown_name := Name s;
            shown_ticker := Ticker s;
            shown_price := [Field (PyFloat price) ".2f"];
            shown_change := [Field (PyFloat change) ".2f"; Lit "%"];
            change_css := color_change (Num change);
            shown_updated := Last_Updated s |}.
Proof. unfold styled_row. by intros -> ->. Qed.

Lemma styled_row_unavailable (s : TickerSnapshot) :
  ¬ populated s → styled_row s = Thrown ValueErr.
Proof.
  intros Hs. unfold styled_row.
  destruct (Price s) as [price|t] eqn:Hp; [|reflexivity].
  destruct (Change s) as [change|t] eqn:Hc; [|reflexivity].
  destruct Hs. by exists price, change.
Qed.

Lemma styled_rows_populated (df : list TickerSnapshot) :
  Forall populated df →
  ∃ rows, styled_rows df = Done rows ∧ Forall2 displayed df rows.
Proof.
  induction 1 as [|s df (price & change & Hp & Hc) _ (rows & IH & Hrows)].
  - by exists [].
  - eexists (_ :: rows). split.
    + by rewrite styled_rows_cons, (styled_row_populated s price change), IH.
    + constructor; [|done]. by exists price, change.
Qed.

Lemma styled_rows_unavailable (df : list TickerSnapshot) :
  Exists (λ s, ¬ populated s) df → styled_rows df = Thrown ValueErr.
Proof.
  induction df as [|s df IH]; intros Hex; [by apply Exists_nil in Hex|].
  rewrite styled_rows_cons.
  destruct (Price s) as [price|t] eqn:Hp;
    [|by rewrite styled_row_unavailable
         by (intros (? & ? & ? & ?); congruence)].
  destruct (Change s) as [change|t] eqn:Hc;
    [|by rewrite styled_row_unavailable
         by (intros (? & ? & ? & ?); congruence)].
  rewrite (styled_row_populated s price change Hp Hc).
  apply Exists_cons in Hex as [Hs|Hex].
  - destruct Hs. by exists price, change.
  - by rewrite (IH Hex).
Qed.

Section portfolio_page.
Context {Timestamp : Type}.
Variable strftime : Timestamp → result string.
Variable get_stock_data : string → string → result (@DataFrame Timestamp).
Variable plotly_chart : Bar → outcome unit.

#[local] Abbreviation close_series := (Dashboard.close_series get_stock_data).
#[local] Abbreviation portfolio_data :=
  (Dashboard.portfolio_data strftime get_stock_data).
#[local] Abbreviation perf_data := (Dashboard.perf_data get_stock_data).
#[local] Abbreviation has_two_points :=
  (Dashboard.has_two_points get_stock_data).
#[local] Abbreviation performance_chart :=
  (Panels.performance_chart get_stock_data plotly_chart).
#[local] Abbreviation portfolio_tab :=
  (Panels.portfolio_tab strftime get_stock_data plotly_chart).

(** Every entry of the performance list holds the period performance of
    its ticker's one-month series. *)
Lemma perf_data_entries (watchlist : list (string * string)) :
  Forall (λ p, ∃ data, close_series (perf_ticker p) "1mo" = Ok data
                       ∧ period_performance data.*2 = Ok (performance p))
         (perf_data watchlist).
Proof.
  induction watchlist as [|[name ticker] wl IH]; [constructor|].
  unfold Dashboard.perf_data. cbn [foldl].
  rewrite (perf_data_acc get_stock_data). apply Forall_app. split; [|done].
  unfold Dashboard.perf_step, perf_try.
  destruct (close_series ticker "1mo") as [data|e] eqn:Hdata;
    cbn [mbind result_bind]; [|constructor].
  destruct (negb (s_empty data) && (1 <? length data)%nat); [|constructor].
  destruct (period_performance data.*2) as [perf|e] eqn:Hperf;
    cbn [mbind result_bind]; [|constructor].
  repeat constructor. by exists data.
Qed.

Lemma tab_unavailable_row (watchlist : list (string * string)) :
  Exists (λ s, ¬ populated s) (portfolio_data watchlist) →
  portfolio_tab watchlist
  = mkPanel [Subheader "Portfolio Overview"] (Thrown ValueErr).
Proof.
  intros Hex. unfold Panels.portfolio_tab, dataframe.
  rewrite (styled_rows_unavailable _ Hex).
  destruct (portfolio_data watchlist); [by apply Exists_nil in Hex|].
  reflexivity.
Qed.

(** X11.  The table of the portfolio tab is drawn outside any [try].  If
    the fetch of some watchlist ticker raises or returns a frame without
    rows, the format of the table fails on that ticker's "N/A" row with a
    ValueError: the tab shows its heading and nothing else, and the
    performance section is not reached.  If the watchlist is not empty and
    every row is populated, the tab shows the table, one displayed row per
    watchlist entry with the change coloured by [color_change] and a height
    of (entries + 1) * 35 + 3, and then the performance section: one bar per
    watchlist ticker with a one-month series of two points, in watchlist
    order, each with the period performance of that ticker's series and its
    colour; the notice that no data could be loaded when there is no such
    ticker; and, when drawing the chart raises, the warning that shows the
    exception, after which the tab still ends normally. *)
Theorem portfolio_tab_shown (watchlist : list (string * string)) :
  (∀ i name ticker,
     watchlist !! i = Some (name, ticker) →
     (∃ e, get_stock_data ticker "1d" = Raise e)
     ∨ (∃ frame, get_stock_data ticker "1d" = Ok frame ∧ index frame = []) →
     portfolio_tab watchlist
     = mkPanel [Subheader "Portfolio Overview"] (Thrown ValueErr)) ∧
  (watchlist ≠ [] → Forall populated (portfolio_data watchlist) →
     ∃ rows,
       Forall2 displayed (portfolio_data watchlist) rows ∧
       length rows = length watchlist ∧
       let table :=
         [ Subheader "Portfolio Overview";
           Dataframe rows ((length watchlist + 1) * 35 + 3);
           Subheader "Portfolio Performance" ] in
       let fig := perf_figure (perf_data watchlist) in
       bar_x fig = filter (λ t, has_two_points t = true) watchlist.*2 ∧
       Forall2 (λ ticker y,
                  ∃ data, close_series ticker "1mo" = Ok data
                          ∧ period_performance data.*2 = Ok y)
               (bar_x fig) (bar_y fig) ∧
       marker_color fig = bar_color <$> bar_y fig ∧
       bar_text fig = (λ y, [Rounded2 y; Lit "%"]) <$> bar_y fig ∧
       (bar_x fig = [] →
          portfolio_tab watchlist
          = mkPanel
              (table ++ [InfoBox [Lit "Could not load performance data for all stocks."]])
              (Done tt)) ∧
       (bar_x fig ≠ [] → plotly_chart fig = Done tt →
          portfolio_tab watchlist
          = mkPanel (table ++ [BarChart fig]) (Done tt)) ∧
       (bar_x fig ≠ [] → ∀ e, plotly_chart fig = Thrown e →
          portfolio_tab watchlist
          = mkPanel
              (table ++ [WarningBox [Lit "Failed to generate performance chart: ";
                                     Shown e]])
              (Done tt))).
Proof.
  split.
  - intros i name ticker Hi Hfail.
    apply tab_unavailable_row.
    destruct (portfolio_data_lookup strftime get_stock_data watchlist i _ Hi)
      as (s & Hs & Hlookup).
    rewrite (snapshot_step_unavailable strftime get_stock_data [] name ticker)
      in Hs.
    + injection Hs as <-. apply Exists_exists.
      exists (unavailable name ticker). split.
      * by eapply list_elem_of_lookup_2.
      * by intros (price & change & Hp & _).
    + destruct Hfail as [[e He] | (frame & Hf & Hidx)].
      * left. exists e. by apply close_series_fetch_failed.
      * by eapply close_series_empty_frame.
  - intros Hne Hpop.
    destruct (styled_rows_populated _ Hpop) as (rows & Hrows & Hdisp).
    exists rows.
    assert (length rows = length watchlist) as Hlen.
    { rewrite <- (Forall2_length _ _ _ Hdisp).
      apply length_portfolio_data. }
    pose proof (perf_data_tickers get_stock_data watchlist) as Htickers.
    pose proof (perf_data_entries watchlist) as Hentries.
    split; [done|]. split; [done|]. cbn zeta. split_and!.
    + done.
    + unfold perf_figure. cbn [bar_x bar_y].
      apply Forall2_fmap, Forall_Forall2_diag. exact Hentries.
    + unfold perf_figure. cbn [marker_color bar_y].
      by rewrite <- list_fmap_compose.
    + unfold perf_figure. cbn [bar_text bar_y].
      by rewrite <- list_fmap_compose.
    + intros Hnil. unfold Panels.portfolio_tab, dataframe.
      rewrite Hrows, (length_portfolio_data strftime get_stock_data).
      destruct (portfolio_data watchlist) as [|s df] eqn:Hdf.
      { apply Forall2_nil_inv_l in Hdisp. subst rows.
        destruct watchlist; [done | simpl in Hlen; lia]. }
      unfold Panels.performance_chart.
      unfold perf_figure in Hnil. cbn [bar_x] in Hnil.
      apply fmap_nil_inv in Hnil. rewrite Hnil. reflexivity.
    + intros Hsome Hdraw. unfold Panels.portfolio_tab, dataframe.
      rewrite Hrows, (length_portfolio_data strftime get_stock_data).
      destruct (portfolio_data watchlist) as [|s df] eqn:Hdf.
      { apply Forall2_nil_inv_l in Hdisp. subst rows.
        destruct watchlist; [done | simpl in Hlen; lia]. }
      unfold Panels.performance_chart.
      destruct (perf_data watchlist) as [|p perf] eqn:Hperf; [done|].
      cbn zeta. rewrite Hdraw. reflexivity.
    + intros Hsome e Hdraw. unfold Panels.portfolio_tab, dataframe.
      rewrite Hrows, (length_portfolio_data strftime get_stock_data).
      destruct (portfolio_data watchlist) as [|s df] eqn:Hdf.
      { apply Forall2_nil_inv_l in Hdisp. subst rows.
        destruct watchlist; [done | simpl in Hlen; lia]. }
      unfold Panels.performance_chart.
      destruct (perf_data watchlist) as [|p perf] eqn:Hperf; [done|].
      cbn zeta. rewrite Hdraw. reflexivity.
Qed.
End portfolio_page.

Lemma portfolio_tab_shown_witness :
  portfolio_tab sample_strftime sample_provider sample_plotly_chart
    sample_watchlist
  = mkPanel [Subheader "Portfolio Overview"] (Thrown ValueErr) ∧
  (∃ rows fig,
     length rows = 2%nat ∧
     bar_x fig = ["AAA"; "CCC"] ∧
     marker_color fig = bar_color <$> bar_y fig ∧
     portfolio_tab sample_strftime sample_provider sample_plotly_chart
       [("First", "AAA"); ("Third", "CCC")]
     = mkPanel [ Subheader "Portfolio Overview"; Dataframe rows 108;
                 Subheader "Portfolio Performance"; BarChart fig ] (Done tt)) ∧
  (∃ rows,
     portfolio_tab sample_strftime sample_provider sample_plotly_chart_raising
       [("First", "AAA"); ("Third", "CCC")]
     = mkPanel [ Subheader "Portfolio Overview"; Dataframe rows 108;
                 Subheader "Portfolio Performance";
                 WarningBox [Lit "Failed to generate performance chart: ";
                             Shown (ProviderErr "figure refused")] ]
               (Done tt)) ∧
  (∃ rows,
     portfolio_tab sample_strftime sample_provider sample_plotly_chart
       [("Zero", "ZERO")]
     = mkPanel [ Subheader "Portfolio Overview"; Dataframe rows 73;
                 Subheader "Portfolio Performance";
                 InfoBox [Lit "Could not load performance data for all stocks."] ]
               (Done tt)).
Proof.
  split; [|split; [|split]].
  - destruct (portfolio_tab_shown sample_strftime sample_provider
                sample_plotly_chart sample_watchlist) as [Hfail _].
    apply (Hfail 1%nat "Second" "BBB"); [reflexivity|].
    left. by exists FetchError.
  - destruct (portfolio_tab_shown sample_strftime sample_provider
                sample_plotly_chart [("First", "AAA"); ("Third", "CCC")])
      as [_ Hdrawn].
    destruct Hdrawn as (rows & _ & Hlen & Hx & _ & Hcol & _ & _ & Hchart & _).
    { done. }
    { vm_compute.
      repeat (apply Forall_cons; split; [eexists _, _; split; reflexivity|]).
      apply Forall_nil_2. }
    exists rows,
      (perf_figure (perf_data sample_provider [("First", "AAA"); ("Third", "CCC")])).
    split_and!.
    + exact Hlen.
    + exact Hx.
    + exact Hcol.
    + apply Hchart; [by rewrite Hx | reflexivity].
  - destruct (portfolio_tab_shown sample_strftime sample_provider
                sample_plotly_chart_raising [("First", "AAA"); ("Third", "CCC")])
      as [_ Hraising].
    destruct Hraising as (rows & _ & _ & Hx & _ & _ & _ & _ & _ & Hwarn).
    { done. }
    { vm_compute.
      repeat (apply Forall_cons; split; [eexists _, _; split; reflexivity|]).
      apply Forall_nil_2. }
    exists rows. apply Hwarn; [by rewrite Hx | reflexivity].
  - destruct (portfolio_tab_shown sample_strftime sample_provider
                sample_plotly_chart [("Zero", "ZERO")]) as [_ Hinfo].
    destruct Hinfo as (rows & _ & _ & Hx & _ & _ & _ & Hinfo & _).
    { done. }
    { vm_compute.
      repeat (apply Forall_cons; split; [eexists _, _; split; reflexivity|]).
      apply Forall_nil_2. }
    exists rows. apply Hinfo. exact Hx.
Defined.
